(** * SpecEI: the media sync pipeline and its gateways

    A shallow embedding of the four Python modules of the repository

    - [AI_Backend/groq_cloud_service.py]   (module [GroqCloud]),
    - [AI_Backend/supabase_sync.py]        (module [SupabaseSync]),
    - [server/face_detection_server.py]    (module [FaceDetection]),
    - [server/whisper_server.py]           (module [WhisperServer]),

    followed by the properties of the specification that concern them.

    Every call that leaves the repository (the HTTP client, the Groq SDK,
    the vision and memory services, OpenCV, the speech model, the JSON
    decoder) is a field of an interface class: the theorems hold for every
    implementation of these interfaces, and the closed examples instantiate
    them with small scripted ones. *)

From Stdlib Require Import ZArith String Ascii List Lia Bool Floats DecimalString.
From stdpp Require Import base option list gmap strings.
Import ListNotations.

Set Warnings "-register-all,-inexact-float".
Local Open Scope Z_scope.

(** ** Python values *)

Module Py.

(** The values that travel through the pipeline are what [json] decodes:
    [None], booleans, numbers, strings, lists and dictionaries.  A [dict]
    keeps its keys in insertion order, as Python's does. *)
Inductive value :=
| VNone
| VBool (b : bool)
| VInt (n : Z)
| VFloat (x : float)
| VStr (s : string)
| VList (items : list value)
| VDict (entries : list (string * value)).

Definition dict := list (string * value).
Definition bytes := list Byte.byte.

(** [bool(v)]: the truth value Python gives a value in [if v] and [not v]. *)
Definition truthy (v : value) : bool :=
  match v with
  | VNone => false
  | VBool b => b
  | VInt n => negb (n =? 0)
  | VFloat x => negb (PrimFloat.eqb x 0%float)
  | VStr s => negb (String.eqb s "")
  | VList items => match items with [] => false | _ => true end
  | VDict entries => match entries with [] => false | _ => true end
  end.

(** [bool(b)] of a byte string, and of an [Optional[bytes]]. *)
Definition truthy_bytes (b : option bytes) : bool :=
  match b with
  | Some (_ :: _) => true
  | _ => false
  end.

(** [k in d] and [d.get(k)] *)
Fixpoint lookup (k : string) (d : dict) : option value :=
  match d with
  | [] => None
  | (k', v) :: rest => if String.eqb k k' then Some v else lookup k rest
  end.

Definition contains_key (k : string) (d : dict) : bool :=
  match lookup k d with Some _ => true | None => false end.

(** [d.get(k, dflt)] *)
Definition get (d : dict) (k : string) (dflt : value) : value :=
  match lookup k d with Some v => v | None => dflt end.

(** [d[k] = v]: an existing key keeps its place, a new one goes last. *)
Fixpoint set (k : string) (v : value) (d : dict) : dict :=
  match d with
  | [] => [(k, v)]
  | (k', v') :: rest =>
      if String.eqb k k' then (k, v) :: rest else (k', v') :: set k v rest
  end.

Definition keys (d : dict) : list string := map fst d.

(** [v in names] for a list literal of strings: [==] between a string and a
    value of another type is false. *)
Definition in_strings (v : value) (names : list string) : bool :=
  match v with
  | VStr s => existsb (String.eqb s) names
  | _ => false
  end.

End Py.

Export Py(value, VNone, VBool, VInt, VFloat, VStr, VList, VDict, dict, bytes).

(** ** Exceptions, outcomes and the effect monad *)

(** What [except Exception] catches.  FastAPI's [HTTPException] is one of
    them; every other exception is kept as its class name and its text.
    What is raised outside the class [Exception] (an interrupt, the exit of
    the interpreter, the cancellation of a task) ends the process or the
    task and is no part of the model. *)
Inductive exn :=
| HTTPException (status_code : Z) (detail : string)
| PyError (class_name : string) (text : string).

Inductive outcome (A : Type) :=
| Ret (a : A)
| Raise (e : exn).
Arguments Ret {A} a.
Arguments Raise {A} e.

(** The calls the program makes outside the repository, in the order it
    makes them. *)
Inductive event :=
| EvHttpGet (url : value)
| EvGroqClient
| EvTranscription (file_name : string)
| EvChatCompletion (stream : bool)
| EvVisionService
| EvVisionAnalyze (path : string)
| EvVisionTags
| EvMemoryService
| EvAddMemory (media_id : value) (user_id : string)
| EvTempFile (suffix : string)
| EvClock
| EvOpenWrite (path : string)
| EvSpeechModel (path : string).

(** [GroqCloudService] objects ([groq_cloud_service.py], [__init__]): the
    fields [api_key], [client] (here: whether it is set) and [available]. *)
Record GroqCloudService := {
  api_key : string;
  client : bool;
  available : bool
}.

(** The state a run threads: the outside world [W] (whatever the external
    services remember), the calls made so far, the files on disk, and the
    module-level singleton [_service_instance] of [groq_cloud_service.py].

    The disk holds regular files in directories the process may write to:
    once a file is there, [os.remove] and [os.unlink] of it succeed. *)
Record state (W : Type) := {
  world : W;
  trace : list event;
  files : gmap string bytes;
  _service_instance : option GroqCloudService
}.
Arguments world {W} s.
Arguments trace {W} s.
Arguments files {W} s.
Arguments _service_instance {W} s.

(** A computation returns or raises, and leaves a state either way: what a
    Python function did before it raised stays done. *)
Definition M (W A : Type) : Type := state W -> outcome A * state W.

Section Monad.
Context {W : Type}.

Definition ret {A} (a : A) : M W A := fun s => (Ret a, s).

Definition raise {A} (e : exn) : M W A := fun s => (Raise e, s).

Definition bind {A B} (m : M W A) (k : A -> M W B) : M W B :=
  fun s =>
    match m s with
    | (Ret a, s') => k a s'
    | (Raise e, s') => (Raise e, s')
    end.

(** A pure step that may raise ([len(x)], [x.get(k)], ...). *)
Definition lift {A} (r : outcome A) : M W A := fun s => (r, s).

(** [try: body  except Exception as e: handler(e)] *)
Definition try_except {A} (body : M W A) (handler : exn -> M W A) : M W A :=
  fun s =>
    match body s with
    | (Ret a, s') => (Ret a, s')
    | (Raise e, s') => handler e s'
    end.

(** [try: body  finally: cleanup].  The cleanup runs on both exits; an
    exception of its own replaces the outcome of the body. *)
Definition try_finally {A} (body : M W A) (cleanup : M W unit) : M W A :=
  fun s =>
    match body s with
    | (r, s') =>
        match cleanup s' with
        | (Ret _, s'') => (r, s'')
        | (Raise e, s'') => (Raise e, s'')
        end
    end.

(** A call to an external service: it may change the world, and it is
    recorded in the trace. *)
Definition call {A} (ev : event) (f : W -> outcome A * W) : M W A :=
  fun s =>
    match f (world s) with
    | (r, w') =>
        (r, {| world := w'; trace := trace s ++ [ev]; files := files s;
               _service_instance := _service_instance s |})
    end.

(** A call that may also touch the disk (a library working on a file). *)
Definition call_with_files {A} (ev : event)
    (f : W * gmap string bytes -> outcome A * (W * gmap string bytes)) : M W A :=
  fun s =>
    match f (world s, files s) with
    | (r, (w', fs')) =>
        (r, {| world := w'; trace := trace s ++ [ev]; files := fs';
               _service_instance := _service_instance s |})
    end.

Definition get_files : M W (gmap string bytes) := fun s => (Ret (files s), s).

Definition put_files (fs : gmap string bytes) : M W unit :=
  fun s =>
    (Ret tt, {| world := world s; trace := trace s; files := fs;
                _service_instance := _service_instance s |}).

Definition get_instance : M W (option GroqCloudService) :=
  fun s => (Ret (_service_instance s), s).

Definition put_instance (i : option GroqCloudService) : M W unit :=
  fun s =>
    (Ret tt, {| world := world s; trace := trace s; files := files s;
                _service_instance := i |}).

End Monad.

Declare Scope py_scope.
Delimit Scope py_scope with py.
Notation "x <- c ;; k" := (bind c (fun x => k))
  (at level 100, c at next level, right associativity) : py_scope.
Notation "c ;; k" := (bind c (fun _ => k))
  (at level 100, right associativity) : py_scope.
Local Open Scope py_scope.

(** ** Files *)

Section Files.
Context {W : Type}.

(** [open(path, "rb").read()] *)
Definition read_file (path : string) : M W bytes :=
  fs <- get_files ;;
  match fs !! path with
  | Some data => ret data
  | None => raise (PyError "FileNotFoundError" path)
  end.

(** [f.write(data)] on a file opened for writing *)
Definition write_file (path : string) (data : bytes) : M W unit :=
  fs <- get_files ;;
  put_files (<[path := data]> fs).

(** [os.path.exists(path)] *)
Definition os_path_exists (path : string) : M W bool :=
  fs <- get_files ;;
  ret (bool_decide (is_Some (fs !! path))).

(** [os.remove(path)], [os.unlink(path)] *)
Definition os_remove (path : string) : M W unit :=
  fs <- get_files ;;
  match fs !! path with
  | Some _ => put_files (delete path fs)
  | None => raise (PyError "FileNotFoundError" path)
  end.

End Files.

(** ** Strings *)

Module Str.

Definition nl : string := String "010"%char EmptyString.
Definition backtick : ascii := "096"%char.
(** The literals [```] and [```json] of [generate_forensic_analysis]. *)
Definition fence : string := String backtick (String backtick (String backtick EmptyString)).
Definition fence_json : string := fence +:+ "json".

(** [s.startswith(p)] *)
Fixpoint startswith (p s : string) : bool :=
  match p, s with
  | EmptyString, _ => true
  | String a p', String b s' => Ascii.eqb a b && startswith p' s'
  | String _ _, EmptyString => false
  end.

(** [sub in s] *)
Fixpoint contains (sub s : string) : bool :=
  startswith sub s ||
  match s with
  | EmptyString => false
  | String _ s' => contains sub s'
  end.

(** [s.split(sep)] for a separator that is not empty: the pieces between
    the occurrences of [sep], found from the left and not overlapping.
    [skip] counts the characters of an occurrence still to pass. *)
Fixpoint split_from (sep : string) (skip : nat) (s : string) : list string :=
  match s with
  | EmptyString => [EmptyString]
  | String c s' =>
      match skip with
      | S n => split_from sep n s'
      | O =>
          if startswith sep s
          then EmptyString :: split_from sep (String.length sep - 1) s'
          else match split_from sep 0 s' with
               | piece :: pieces => String c piece :: pieces
               | [] => [String c EmptyString]
               end
      end
  end.

Definition split (sep s : string) : list string := split_from sep 0 s.

(** [str.isspace] on the ASCII range: tab, line feed, vertical tab, form
    feed, carriage return, the four separators 28..31, and the space. *)
Definition is_space (c : ascii) : bool :=
  let n := nat_of_ascii c in
  ((9 <=? n) && (n <=? 13) || (28 <=? n) && (n <=? 32))%nat.

Fixpoint lstrip (s : string) : string :=
  match s with
  | EmptyString => EmptyString
  | String c s' => if is_space c then lstrip s' else s
  end.

Fixpoint rstrip (s : string) : string :=
  match s with
  | EmptyString => EmptyString
  | String c s' =>
      match rstrip s' with
      | EmptyString => if is_space c then EmptyString else String c EmptyString
      | r => String c r
      end
  end.

(** [s.strip()] *)
Definition strip (s : string) : string := lstrip (rstrip s).

(** [sep.join(parts)] *)
Fixpoint join (sep : string) (parts : list string) : string :=
  match parts with
  | [] => EmptyString
  | [p] => p
  | p :: rest => p +:+ sep +:+ join sep rest
  end.

(** The one-character strings a [for c in s] yields. *)
Fixpoint chars (s : string) : list string :=
  match s with
  | EmptyString => []
  | String c s' => String c EmptyString :: chars s'
  end.

End Str.

(** ** The runtime: printing values, paths, JSON *)

(** [str(v)] (also what an f-string prints), [str(e)] of a caught
    exception, and the two [os.path] functions the code calls. *)
Class Runtime := {
  str_value : value -> string;
  str_exn : exn -> string;
  os_path_splitext : string -> string * string;
  os_path_basename : string -> string
}.

(** [json.loads] *)
Class Json := {
  json_loads : string -> outcome value
}.

Module PyOps.

(** [v.get(k, dflt)]: only a [dict] has the method. *)
Definition get (v : value) (k : string) (dflt : value) : outcome value :=
  match v with
  | VDict d => Ret (Py.get d k dflt)
  | _ => Raise (PyError "AttributeError" "object has no attribute 'get'")
  end.

(** [len(v)] *)
Definition len (v : value) : outcome Z :=
  match v with
  | VStr s => Ret (Z.of_nat (String.length s))
  | VList items => Ret (Z.of_nat (List.length items))
  | VDict d => Ret (Z.of_nat (List.length d))
  | _ => Raise (PyError "TypeError" "object has no len()")
  end.

(** [for x in v]: the items of a list, the keys of a dict, the characters
    of a string. *)
Definition iter (v : value) : outcome (list value) :=
  match v with
  | VList items => Ret items
  | VDict d => Ret (map VStr (Py.keys d))
  | VStr s => Ret (map VStr (Str.chars s))
  | _ => Raise (PyError "TypeError" "object is not iterable")
  end.

(** [xs[i]] on a list *)
Definition index {A} (xs : list A) (i : nat) : outcome A :=
  match nth_error xs i with
  | Some x => Ret x
  | None => Raise (PyError "IndexError" "list index out of range")
  end.

End PyOps.

Section Traverse.
Context {W : Type}.

(** A [for] loop that builds a list, left to right, stopping at the first
    exception. *)
Fixpoint for_each {A B} (f : A -> M W B) (xs : list A) : M W (list B) :=
  match xs with
  | [] => ret []
  | x :: rest =>
      y <- f x ;;
      ys <- for_each f rest ;;
      ret (y :: ys)
  end.

End Traverse.

(** ** [AI_Backend/groq_cloud_service.py] *)

Module GroqCloud.

(** What [client.audio.transcriptions.create] returns: [text] always,
    [language] and [segments] when the object has the attribute. *)
Record Transcription := {
  text : value;
  language : option value;
  segments : option value
}.

(** A chat message: a [Dict[str, str]] with a role and a content. *)
Definition message := list (string * string).

(** A streamed completion: the chunks that arrive (each one the
    [delta.content] of its choices) and the failure that ends the stream
    early, if any. *)
Record Stream := {
  chunks : list (list value);
  failure : option exn
}.

(** The Groq SDK.  [GROQ_API_KEY] is the environment variable read at
    import; a completion that is not streamed is the [message.content] of
    its choices. *)
Class GroqAPI (W : Type) := {
  GROQ_API_KEY : string;
  Groq : string -> W -> outcome unit * W;
  transcriptions_create : string -> bytes -> W -> outcome Transcription * W;
  completions_create : list message -> float -> Z -> W -> outcome (list value) * W;
  completions_create_stream : list message -> float -> Z -> W -> outcome Stream * W
}.

Section Service.
Context {W : Type} `{Runtime} `{Json} `{GroqAPI W}.

(** [GroqCloudService.__init__] *)
Definition __init__ : M W GroqCloudService :=
  if negb (String.eqb GROQ_API_KEY "")
  then
    try_except
      (call EvGroqClient (Groq GROQ_API_KEY) ;;
       ret {| api_key := GROQ_API_KEY; client := true; available := true |})
      (fun e =>
         ret {| api_key := GROQ_API_KEY; client := false; available := false |})
  else
    ret {| api_key := GROQ_API_KEY; client := false; available := false |}.

(** [get_groq_cloud_service] *)
Definition get_groq_cloud_service : M W GroqCloudService :=
  instance <- get_instance ;;
  match instance with
  | None =>
      service <- __init__ ;;
      put_instance (Some service) ;;
      ret service
  | Some service => ret service
  end.

(** The dictionaries [transcribe_audio] returns. *)
Definition transcribe_error (msg : string) : dict :=
  [("error", VStr msg); ("text", VStr ""); ("segments", VList [])].

(** One pass of [for seg in transcription.segments] *)
Definition segment_entry (seg : value) : outcome value :=
  match PyOps.get seg "text" (VStr "") with
  | Raise e => Raise e
  | Ret t =>
      match PyOps.get seg "start" (VInt 0) with
      | Raise e => Raise e
      | Ret st =>
          match PyOps.get seg "end" (VInt 0) with
          | Raise e => Raise e
          | Ret en => Ret (VDict [("text", t); ("start", st); ("end", en)])
          end
      end
  end.

(** The [try] block of [transcribe_audio] (lines 73-105). *)
Definition transcribe_audio_body (audio_path : string) : M W dict :=
  data <- read_file audio_path ;;
  transcription <-
    call (EvTranscription (os_path_basename audio_path))
         (transcriptions_create (os_path_basename audio_path) data) ;;
  let result :=
    [("text", text transcription);
     ("language", default (VStr "unknown") (language transcription));
     ("segments", VList [])] in
  let fallback :=
    Py.set "segments"
      (VList [VDict [("text", text transcription);
                     ("start", VInt 0); ("end", VNone)]])
      result in
  result <-
    match segments transcription with
    | Some segs =>
        if Py.truthy segs
        then
          items <- lift (PyOps.iter segs) ;;
          entries <- for_each (fun seg => lift (segment_entry seg)) items ;;
          ret (Py.set "segments" (VList entries) result)
        else ret fallback
    | None => ret fallback
    end ;;
  lift (PyOps.len (Py.get result "text" VNone)) ;;
  ret result.

(** [GroqCloudService.transcribe_audio] *)
Definition transcribe_audio (self : GroqCloudService) (audio_path : string)
  : M W dict :=
  if negb (available self)
  then ret (transcribe_error "Groq service not available")
  else
    try_except (transcribe_audio_body audio_path)
               (fun e => ret (transcribe_error (str_exn e))).

Definition model_name : string := "openai/gpt-oss-120b".

Definition chat_error (msg : string) : dict :=
  [("error", VStr msg); ("content", VStr "")].

(** [for chunk in completion: ...] (lines 152-156) *)
Fixpoint collect_stream (chunks : list (list value)) (failure : option exn)
    (content : string) : outcome string :=
  match chunks with
  | [] =>
      match failure with
      | Some e => Raise e
      | None => Ret content
      end
  | chunk :: rest =>
      match PyOps.index chunk 0 with
      | Raise e => Raise e
      | Ret delta =>
          if Py.truthy delta
          then match delta with
               | VStr d => collect_stream rest failure (content +:+ d)
               | _ => Raise (PyError "TypeError" "can only concatenate str")
               end
          else collect_stream rest failure content
      end
  end.

(** The [try] block of [chat_completion] (lines 138-173). *)
Definition chat_completion_body (messages : list message) (temperature : float)
    (max_tokens : Z) (stream : bool) : M W dict :=
  if stream
  then
    completion <-
      call (EvChatCompletion true)
           (completions_create_stream messages temperature max_tokens) ;;
    content <-
      lift (collect_stream (chunks completion) (failure completion) "") ;;
    ret [("content", VStr content); ("model", VStr model_name)]
  else
    choices <-
      call (EvChatCompletion false)
           (completions_create messages temperature max_tokens) ;;
    content <- lift (PyOps.index choices 0) ;;
    ret [("content", content); ("model", VStr model_name)].

(** [GroqCloudService.chat_completion] *)
Definition chat_completion (self : GroqCloudService) (messages : list message)
    (temperature : float) (max_tokens : Z) (stream : bool) : M W dict :=
  if negb (available self)
  then ret (chat_error "Groq service not available")
  else
    try_except (chat_completion_body messages temperature max_tokens stream)
               (fun e => ret (chat_error (str_exn e))).

End Service.

Section Forensic.
Context {W : Type} `{Runtime} `{Json} `{GroqAPI W}.

(** The string literal of lines 196-232 of [groq_cloud_service.py]. *)
Variable system_prompt : string.

(** The f-string of lines 234-241. *)
Definition user_prompt (evidence_text media_id user_id : string) : string :=
  "Analyze this evidence and generate a forensic memory log." +:+ Str.nl +:+
  Str.nl +:+
  "MEDIA ID: " +:+ media_id +:+ Str.nl +:+
  "USER ID: " +:+ user_id +:+ Str.nl +:+
  Str.nl +:+
  evidence_text +:+ Str.nl +:+
  Str.nl +:+
  "Generate the forensic memory JSON now.".

(** "Clean markdown wrapping" (lines 259-263). *)
Definition clean_markdown (content : string) : outcome string :=
  if Str.contains Str.fence_json content
  then
    match PyOps.index (Str.split Str.fence_json content) 1 with
    | Raise e => Raise e
    | Ret inner => PyOps.index (Str.split Str.fence inner) 0
    end
  else if Str.contains Str.fence content
  then
    match PyOps.index (Str.split Str.fence content) 1 with
    | Raise e => Raise e
    | Ret inner => PyOps.index (Str.split Str.fence inner) 0
    end
  else Ret content.

(** [forensic_log[k] = v]: item assignment with a string key works on a
    [dict] only. *)
Definition set_item (log : value) (k : string) (v : value) : outcome value :=
  match log with
  | VDict d => Ret (VDict (Py.set k v d))
  | _ => Raise (PyError "TypeError" "object does not support item assignment")
  end.

(** The [try] block of [generate_forensic_analysis] (lines 256-270),
    from the dictionary [chat_completion] returned.  A content that is
    not a string has no [split] and no [strip]. *)
Definition decode_forensic_log (result : dict) (media_id user_id : string)
  : outcome value :=
  match Py.get result "content" (VStr "") with
  | VStr content =>
      match clean_markdown content with
      | Raise e => Raise e
      | Ret content =>
          match json_loads (Str.strip content) with
          | Raise e => Raise e
          | Ret forensic_log =>
              match set_item forensic_log "media_id" (VStr media_id) with
              | Raise e => Raise e
              | Ret forensic_log =>
                  set_item forensic_log "user_id" (VStr user_id)
              end
          end
      end
  | _ => Raise (PyError "TypeError" "content is not a string")
  end.

(** [GroqCloudService.generate_forensic_analysis] *)
Definition generate_forensic_analysis (self : GroqCloudService)
    (evidence_text media_id user_id : string) : M W (option value) :=
  result <-
    chat_completion self
      [[("role", "system"); ("content", system_prompt)];
       [("role", "user");
        ("content", user_prompt evidence_text media_id user_id)]]
      0.1%float 2048 false ;;
  if Py.contains_key "error" result
  then ret None
  else
    try_except
      (forensic_log <- lift (decode_forensic_log result media_id user_id) ;;
       ret (Some forensic_log))
      (fun e => ret None).

End Forensic.

End GroqCloud.

(** ** [AI_Backend/supabase_sync.py] *)

Module SupabaseSync.

(** An [httpx] response: the status, the body, and what [response.json()]
    gives (the media table answers with a JSON array of records). *)
Record Response := {
  status_code : Z;
  content : bytes;
  json : outcome (list dict)
}.

(** [self.client], the shared [httpx.AsyncClient]: [get(url, headers, params)]. *)
Class HttpClient (W : Type) := {
  client_get :
    value -> list (string * string) -> list (string * string) ->
    W -> outcome Response * W
}.

(** [vision_api_service]: the import with [get_vision_api_service()],
    [analyze_frame] and [convert_to_tags]. *)
Class VisionService (W : Type) := {
  get_vision_api_service : W -> outcome unit * W;
  analyze_frame : string -> W -> outcome value * W;
  convert_to_tags : value -> W -> outcome value * W
}.

(** [supermemory_service]: the import with [get_supermemory_service()],
    and [add_memory(content, user_id, media_id)]. *)
Class MemoryService (W : Type) := {
  get_supermemory_service : W -> outcome unit * W;
  add_memory : string -> string -> value -> W -> outcome unit * W
}.

(** What [f.write(file_bytes)] comes to: all the bytes are in the file,
    or the write raises after [reached] of them got there. *)
Inductive written :=
| AllWritten
| WriteFailed (e : exn) (reached : nat).

(** [tempfile.NamedTemporaryFile(suffix, delete=False)] (the name it
    picks; the file is created with it), [f.write(file_bytes)] into that
    file as the operating system takes it, and
    [datetime.now().isoformat()]. *)
Class System (W : Type) := {
  NamedTemporaryFile : string -> W -> outcome string * W;
  f_write : string -> bytes -> W -> written * W;
  now_isoformat : W -> string * W
}.

(** The fields [__init__] sets from [SUPABASE_URL] and [SUPABASE_ANON_KEY]. *)
Record SupabaseSyncService := {
  supabase_url : string;
  supabase_key : string
}.


Section Service.
Context {W : Type} `{Runtime} `{Json} `{GroqCloud.GroqAPI W}
        `{HttpClient W} `{VisionService W} `{MemoryService W} `{System W}.

(** The request of [get_user_media] (lines 53-59). *)
Definition media_url (self : SupabaseSyncService) : string :=
  supabase_url self +:+ "/rest/v1/media".

Definition media_headers (self : SupabaseSyncService) : list (string * string) :=
  [("apikey", supabase_key self);
   ("Authorization", "Bearer " +:+ supabase_key self);
   ("Content-Type", "application/json")].

Definition media_params (user_id : string) : list (string * string) :=
  [("user_id", "eq." +:+ user_id); ("select", "*")].

(** [SupabaseSyncService.get_user_media] *)
Definition get_user_media (self : SupabaseSyncService) (user_id : string)
  : M W (list dict) :=
  if String.eqb (supabase_url self) ""
  then ret []
  else
    try_except
      (response <-
         call (EvHttpGet (VStr (media_url self)))
              (client_get (VStr (media_url self)) (media_headers self)
                          (media_params user_id)) ;;
       if status_code response =? 200
       then
         media_list <- lift (json response) ;;
         ret media_list
       else ret [])
      (fun e => ret []).

(** [SupabaseSyncService.download_media] *)
Definition download_media (self : SupabaseSyncService) (file_url : value)
  : M W (option bytes) :=
  if negb (Py.truthy file_url)
  then ret None
  else
    try_except
      (response <- call (EvHttpGet file_url) (client_get file_url [] []) ;;
       if status_code response =? 200
       then ret (Some (content response))
       else ret None)
      (fun e => ret None).

(** The transcription branch of [analyze_media] (lines 118-124). *)
Definition transcription_path (groq : GroqCloudService) (temp_path : string)
    (result : dict) : M W dict :=
  transcript_result <- GroqCloud.transcribe_audio groq temp_path ;;
  if Py.truthy (VDict transcript_result) &&
     negb (Py.truthy (Py.get transcript_result "error" VNone))
  then
    let result := Py.set "transcript" (Py.get transcript_result "text" (VStr "")) result in
    let result := Py.set "segments" (Py.get transcript_result "segments" (VList [])) result in
    lift (PyOps.len (Py.get result "transcript" VNone)) ;;
    ret result
  else ret result.

(** The vision branch of [analyze_media] (lines 126-143), with its own
    [try/except].  [result] is changed in place, so what was assigned
    stays when the log line after it raises; the [get] calls after the
    first one cannot raise, [vision_result] being a [dict] by then. *)
Definition vision_path (temp_path : string) (result : dict) : M W dict :=
  try_except
    (call EvVisionService get_vision_api_service ;;
     vision_result <- call (EvVisionAnalyze temp_path) (analyze_frame temp_path) ;;
     if Py.truthy vision_result
     then
       error <- lift (PyOps.get vision_result "error" VNone) ;;
       if negb (Py.truthy error)
       then
         tags_list <- call EvVisionTags (convert_to_tags vision_result) ;;
         let result := Py.set "tags" tags_list result in
         summary <- lift (PyOps.get vision_result "visual_summary" VNone) ;;
         description <-
           (if Py.truthy summary then ret summary
            else lift (PyOps.get vision_result "summary" (VStr ""))) ;;
         let result := Py.set "description" description result in
         try_except (lift (PyOps.len tags_list) ;; ret result)
                    (fun e => ret result)
       else ret result
     else ret result)
    (fun e => ret result).

(** The [try] block of [analyze_media] (lines 118-143): the branch on
    the declared media type. *)
Definition analysis_paths (groq : GroqCloudService) (media_type : value)
    (temp_path : string) (result : dict) : M W dict :=
  result <-
    (if Py.in_strings media_type ["audio"; "video"]
     then transcription_path groq temp_path result
     else ret result) ;;
  if Py.in_strings media_type ["image"; "video"]
  then vision_path temp_path result
  else ret result.

(** [f.write(file_bytes)], as the operating system decides it. *)
Definition ask_write (temp_path : string) (file_bytes : bytes) : M W written :=
  fun s =>
    match f_write temp_path file_bytes (world s) with
    | (outcome, w') =>
        (Ret outcome,
         {| world := w'; trace := trace s; files := files s;
            _service_instance := _service_instance s |})
    end.

(** The [with] block of [analyze_media] (lines 113-115).  The file is
    there, empty, from [NamedTemporaryFile] on; a write that fails leaves
    it there with the bytes that reached it, and raises before the [try]
    of line 117 is entered. *)
Definition save_temp_file (suffix : string) (file_bytes : bytes) : M W string :=
  temp_path <- call (EvTempFile suffix) (NamedTemporaryFile suffix) ;;
  write_file temp_path [] ;;
  outcome <- ask_write temp_path file_bytes ;;
  match outcome with
  | AllWritten =>
      write_file temp_path file_bytes ;;
      ret temp_path
  | WriteFailed e reached =>
      write_file temp_path (take reached file_bytes) ;;
      raise e
  end.

(** [SupabaseSyncService.analyze_media] *)
Definition analyze_media (file_bytes : bytes) (media_type filename : value)
  : M W dict :=
  groq <- GroqCloud.get_groq_cloud_service ;;
  analyzed_at <- call EvClock (fun w => let (t, w') := now_isoformat w in (Ret t, w')) ;;
  let result :=
    [("transcript", VNone); ("tags", VList []); ("description", VNone);
     ("analyzed_at", VStr analyzed_at)] in
  if negb (available groq)
  then ret result
  else
    suffix <-
      match filename with
      | VStr name =>
          let ext := snd (os_path_splitext name) in
          ret (if String.eqb ext "" then ".tmp" else ext)
      | _ => raise (PyError "TypeError" "expected str, bytes or os.PathLike object")
      end ;;
    temp_path <- save_temp_file suffix file_bytes ;;
    try_finally
      (analysis_paths groq media_type temp_path result)
      (try_except (os_remove temp_path) (fun e => ret tt)).

(** The names joined into the [TAGS] line (line 176). *)
Definition tag_name (t : value) : value :=
  match t with
  | VDict d => Py.get d "name" t
  | _ => VStr (str_value t)
  end.

(** [', '.join(tag_names)]: every item has to be a string. *)
Definition join_names (names : list value) : outcome string :=
  match
    foldr (fun name acc =>
             match name, acc with
             | VStr n, Some ns => Some (n :: ns)
             | _, _ => None
             end) (Some []) names
  with
  | Some ns => Ret (Str.join ", " ns)
  | None => Raise (PyError "TypeError" "sequence item: expected str instance")
  end.

(** The text block [store_to_supermemory] builds (lines 167-180). *)
Definition memory_content (media_id : value) (user_id : string) (analysis : dict)
    (media_type filename : value) : outcome string :=
  let content_parts :=
    [if Py.truthy filename
     then "[FILE] " +:+ str_value filename
     else "[MEDIA] " +:+ str_value media_type] in
  let content_parts :=
    if Py.truthy (Py.get analysis "transcript" VNone)
    then content_parts ++ ["[TRANSCRIPT] " +:+ str_value (Py.get analysis "transcript" VNone)]
    else content_parts in
  let content_parts :=
    if Py.truthy (Py.get analysis "description" VNone)
    then content_parts ++ ["[VISUAL] " +:+ str_value (Py.get analysis "description" VNone)]
    else content_parts in
  match
    (if Py.truthy (Py.get analysis "tags" VNone)
     then
       match PyOps.iter (Py.get analysis "tags" VNone) with
       | Raise e => Raise e
       | Ret tags =>
           match join_names (map tag_name tags) with
           | Raise e => Raise e
           | Ret joined => Ret (content_parts ++ ["[TAGS] " +:+ joined])
           end
       end
     else Ret content_parts)
  with
  | Raise e => Raise e
  | Ret content_parts =>
      Ret ("Media ID: " +:+ str_value media_id +:+ Str.nl +:+
           "User: " +:+ user_id +:+ Str.nl +:+
           "Type: " +:+ str_value media_type +:+ Str.nl +:+
           "File: " +:+ str_value filename +:+ Str.nl +:+ Str.nl +:+
           Str.join (Str.nl +:+ Str.nl) content_parts)
  end.

(** [SupabaseSyncService.store_to_supermemory] *)
Definition store_to_supermemory (media_id : value) (user_id : string)
    (analysis : dict) (media_type filename : value) : M W bool :=
  call EvMemoryService get_supermemory_service ;;
  content <- lift (memory_content media_id user_id analysis media_type filename) ;;
  try_except
    (call (EvAddMemory media_id user_id) (add_memory content user_id media_id) ;;
     ret true)
    (fun e => ret false).

(** One pass of the loop of [sync_user_media] (lines 210-238), from the
    counters [(processed, errors)] before it to the counters after it. *)
Definition sync_record (self : SupabaseSyncService) (user_id : string)
    (media : dict) (counters : Z * Z) : M W (Z * Z) :=
  let '(processed, errors) := counters in
  let media_id := Py.get media "id" (VStr "") in
  let file_url := Py.get media "file_url" (VStr "") in
  let media_type := Py.get media "type" (VStr "image") in
  let filename := Py.get media "file_name" (VStr "file") in
  if negb (Py.truthy file_url)
  then ret (processed, errors)
  else
    try_except
      (file_bytes <- download_media self file_url ;;
       if negb (Py.truthy_bytes file_bytes)
       then ret (processed, errors + 1)
       else
         analysis <- analyze_media (default [] file_bytes) media_type filename ;;
         success <- store_to_supermemory media_id user_id analysis media_type filename ;;
         if success
         then ret (processed + 1, errors)
         else ret (processed, errors + 1))
      (fun e => ret (processed, errors + 1)).

(** [for media in media_list: ...] *)
Fixpoint sync_loop (self : SupabaseSyncService) (user_id : string)
    (media_list : list dict) (counters : Z * Z) : M W (Z * Z) :=
  match media_list with
  | [] => ret counters
  | media :: rest =>
      counters <- sync_record self user_id media counters ;;
      sync_loop self user_id rest counters
  end.

(** [SupabaseSyncService.sync_user_media] *)
Definition sync_user_media (self : SupabaseSyncService) (user_id : string)
  : M W dict :=
  media_list <- get_user_media self user_id ;;
  match media_list with
  | [] =>
      ret [("status", VStr "no_media"); ("processed", VInt 0); ("total", VInt 0)]
  | _ =>
      counters <- sync_loop self user_id media_list (0, 0) ;;
      ret [("status", VStr "completed");
           ("processed", VInt (fst counters));
           ("total", VInt (Z.of_nat (length media_list)));
           ("errors", VInt (snd counters))]
  end.

End Service.

End SupabaseSync.

(** ** The local servers *)

(** FastAPI's [UploadFile]: the client's file name, and what reading the
    upload gives. *)
Record UploadFile := {
  filename : option string;
  file : outcome bytes
}.

(** The status of the HTTP response FastAPI sends for a handler's outcome:
    200 for a returned body, the status of a raised [HTTPException], 500
    for any other exception. *)
Definition http_status {A} (r : outcome A) : Z :=
  match r with
  | Ret _ => 200
  | Raise (HTTPException status _) => status
  | Raise (PyError _ _) => 500
  end.

(** *** [server/face_detection_server.py] *)

Module FaceDetection.

(** The arguments of [detectMultiScale]. *)
Record CascadeArgs := {
  scaleFactor : float;
  minNeighbors : Z;
  minSize : Z * Z;
  flags : option string
}.

(** OpenCV and [base64].  [imdecode] gives [None] for a buffer it cannot
    read; a rectangle is [(x, y, w, h)]; [region gray (x, y, w, h)] is the
    slice [gray[y:y+h, x:x+w]]; [shape] is [(height, width)]. *)
Class OpenCV := {
  Image : Type;
  imdecode : bytes -> outcome (option Image);
  cvtColor : Image -> outcome Image;
  face_cascade : Image -> CascadeArgs -> outcome (list (Z * Z * Z * Z));
  eye_cascade : Image -> outcome (list (Z * Z * Z * Z));
  region : Image -> Z * Z * Z * Z -> Image;
  shape : Image -> Z * Z;
  b64decode : string -> outcome bytes
}.

(** [enumerate(xs)] *)
Definition enumerate {A} (xs : list A) : list (Z * A) :=
  combine (map Z.of_nat (seq 0 (length xs))) xs.

Section Server.
Context {W : Type} `{Runtime} `{OpenCV}.

(** The [try] block of [detect_faces] (lines 47-90). *)
Definition detect_faces_body (upload : UploadFile) : M W value :=
  contents <- lift (file upload) ;;
  img <- lift (imdecode contents) ;;
  match img with
  | None => raise (HTTPException 400 "Could not decode image")
  | Some img =>
      gray <- lift (cvtColor img) ;;
      faces <-
        lift (face_cascade gray
                {| scaleFactor := 1.1%float; minNeighbors := 5;
                   minSize := (30, 30); flags := Some "CASCADE_SCALE_IMAGE" |}) ;;
      face_data <-
        for_each
          (fun '(i, (x, y, w, h)) =>
             eyes <- lift (eye_cascade (region gray (x, y, w, h))) ;;
             ret (VDict [("id", VInt (i + 1));
                         ("x", VInt x); ("y", VInt y);
                         ("width", VInt w); ("height", VInt h);
                         ("confidence", VFloat 0.85%float);
                         ("eyes_detected", VInt (Z.of_nat (length eyes)))]))
          (enumerate faces) ;;
      ret (VDict [("face_count", VInt (Z.of_nat (length faces)));
                  ("faces", VList face_data);
                  ("image_width", VInt (snd (shape img)));
                  ("image_height", VInt (fst (shape img)))])
  end.

(** [detect_faces], the handler of [POST /detect] *)
Definition detect_faces (upload : UploadFile) : M W value :=
  try_except (detect_faces_body upload)
             (fun e => raise (HTTPException 500 (str_exn e))).

(** The [try] block of [detect_faces_base64] (lines 103-143).  An
    [image] that is true and not a string fails at [in], [split] or
    [b64decode]. *)
Definition detect_faces_base64_body (data : dict) : M W value :=
  let image_data := Py.get data "image" VNone in
  if negb (Py.truthy image_data)
  then raise (HTTPException 400 "No image data provided")
  else
    match image_data with
    | VStr image_data =>
        image_data <-
          (if Str.contains "," image_data
           then lift (PyOps.index (Str.split "," image_data) 1)
           else ret image_data) ;;
        img_bytes <- lift (b64decode image_data) ;;
        img <- lift (imdecode img_bytes) ;;
        match img with
        | None => raise (HTTPException 400 "Could not decode image")
        | Some img =>
            gray <- lift (cvtColor img) ;;
            faces <-
              lift (face_cascade gray
                      {| scaleFactor := 1.2%float; minNeighbors := 4;
                         minSize := (50, 50); flags := None |}) ;;
            let face_data :=
              map (fun '(i, (x, y, w, h)) =>
                     VDict [("id", VInt (i + 1));
                            ("x", VInt x); ("y", VInt y);
                            ("width", VInt w); ("height", VInt h)])
                  (enumerate faces) in
            ret (VDict [("face_count", VInt (Z.of_nat (length faces)));
                        ("faces", VList face_data)])
        end
    | _ => raise (PyError "TypeError" "image is not a string")
    end.

(** [detect_faces_base64], the handler of [POST /detect_base64] *)
Definition detect_faces_base64 (data : dict) : M W value :=
  try_except (detect_faces_base64_body data)
             (fun e => raise (HTTPException 500 (str_exn e))).

End Server.

End FaceDetection.

(** *** [server/whisper_server.py] *)

Module WhisperServer.

(** [info] of [model.transcribe]. *)
Record TranscriptionInfo := {
  language : value;
  language_probability : value
}.

(** [open(path, "wb")] as the operating system decides it, and
    [model.transcribe(path, beam_size)] with the segments' texts; the
    model works on the file, so it sees the disk. *)
Class SpeechModel (W : Type) := {
  open_wb : string -> W -> outcome unit * W;
  model_transcribe :
    string -> Z -> W * gmap string bytes ->
    outcome (list string * TranscriptionInfo) * (W * gmap string bytes)
}.

Section Server.
Context {W : Type} `{Runtime} `{SpeechModel W}.

(** [f"temp_{file.filename}"] *)
Definition temp_filename (upload : UploadFile) : string :=
  "temp_" +:+ default "None" (filename upload).

(** The [try] block of [transcribe_audio] (lines 46-60). *)
Definition transcribe_audio_body (upload : UploadFile) : M W value :=
  call (EvOpenWrite (temp_filename upload)) (open_wb (temp_filename upload)) ;;
  write_file (temp_filename upload) [] ;;
  data <- lift (file upload) ;;
  write_file (temp_filename upload) data ;;
  transcribed <-
    call_with_files (EvSpeechModel (temp_filename upload))
                    (model_transcribe (temp_filename upload) 5) ;;
  let '(segments, info) := transcribed in
  let transcription := Str.strip (Str.join " " segments) in
  ret (VDict [("text", VStr transcription);
              ("language", language info);
              ("probability", language_probability info)]).

(** The [finally] block (lines 68-69). *)
Definition cleanup (upload : UploadFile) : M W unit :=
  present <- os_path_exists (temp_filename upload) ;;
  if present : bool then os_remove (temp_filename upload) else ret tt.

(** [transcribe_audio], the handler of [POST /transcribe] *)
Definition transcribe_audio (upload : UploadFile) : M W value :=
  try_finally
    (try_except (transcribe_audio_body upload)
                (fun e => raise (HTTPException 500 (str_exn e))))
    (cleanup upload).

End Server.

End WhisperServer.

(** ** Scripted implementations of the interfaces

    Small executable implementations, used by the closed examples only. *)

(** A decoder for the part of JSON the examples use: objects, arrays,
    strings without escapes, integers, [true], [false] and [null]. *)
Module TinyJson.

Definition quote : ascii := "034"%char.

Fixpoint skip_ws (s : string) : string :=
  match s with
  | String c s' =>
      if (Ascii.eqb c " " || Ascii.eqb c "009" || Ascii.eqb c "010" || Ascii.eqb c "013")%char
      then skip_ws s' else s
  | EmptyString => EmptyString
  end.

(** The characters up to the closing quote, and the text after it. *)
Fixpoint string_body (s : string) : option (string * string) :=
  match s with
  | EmptyString => None
  | String c s' =>
      if Ascii.eqb c quote then Some (EmptyString, s')
      else if Ascii.eqb c "\"%char then None
      else match string_body s' with
           | Some (body, rest) => Some (String c body, rest)
           | None => None
           end
  end.

Definition digit (c : ascii) : option Z :=
  let n := nat_of_ascii c in
  if ((48 <=? n) && (n <=? 57))%nat then Some (Z.of_nat n - 48) else None.

Fixpoint digits (s : string) (acc : Z) : Z * string :=
  match s with
  | String c s' =>
      match digit c with
      | Some d => digits s' (10 * acc + d)
      | None => (acc, s)
      end
  | EmptyString => (acc, s)
  end.

Definition number (s : string) : option (Z * string) :=
  match s with
  | String c s' =>
      if Ascii.eqb c "-"%char
      then match s' with
           | String d _ =>
               match digit d with
               | Some _ => let (n, rest) := digits s' 0 in Some (- n, rest)
               | None => None
               end
           | EmptyString => None
           end
      else match digit c with
           | Some _ => Some (digits s 0)
           | None => None
           end
  | EmptyString => None
  end.

Definition keyword (word : string) (v : value) (s : string) : option (value * string) :=
  if Str.startswith word s
  then Some (v, String.substring (String.length word) (String.length s - String.length word) s)
  else None.

Fixpoint parse_value (fuel : nat) (s : string) : option (value * string) :=
  match fuel with
  | O => None
  | S fuel =>
      match skip_ws s with
      | EmptyString => None
      | String c s' =>
          if Ascii.eqb c "{"%char then
            match skip_ws s' with
            | String c' s'' =>
                if Ascii.eqb c' "}"%char then Some (VDict [], s'')
                else match parse_members fuel (skip_ws s') [] with
                     | Some (d, rest) => Some (VDict d, rest)
                     | None => None
                     end
            | EmptyString => None
            end
          else if Ascii.eqb c "["%char then
            match skip_ws s' with
            | String c' s'' =>
                if Ascii.eqb c' "]"%char then Some (VList [], s'')
                else match parse_elements fuel (skip_ws s') with
                     | Some (items, rest) => Some (VList items, rest)
                     | None => None
                     end
            | EmptyString => None
            end
          else if Ascii.eqb c quote then
            match string_body s' with
            | Some (body, rest) => Some (VStr body, rest)
            | None => None
            end
          else
            match number (String c s') with
            | Some (n, rest) => Some (VInt n, rest)
            | None =>
                match keyword "null" VNone (String c s') with
                | Some r => Some r
                | None =>
                    match keyword "true" (VBool true) (String c s') with
                    | Some r => Some r
                    | None => keyword "false" (VBool false) (String c s')
                    end
                end
            end
      end
  end

with parse_elements (fuel : nat) (s : string) : option (list value * string) :=
  match fuel with
  | O => None
  | S fuel =>
      match parse_value fuel s with
      | Some (v, rest) =>
          match skip_ws rest with
          | String c rest' =>
              if Ascii.eqb c ","%char then
                match parse_elements fuel rest' with
                | Some (vs, rest'') => Some (v :: vs, rest'')
                | None => None
                end
              else if Ascii.eqb c "]"%char then Some ([v], rest')
              else None
          | EmptyString => None
          end
      | None => None
      end
  end

with parse_members (fuel : nat) (s : string) (acc : dict) : option (dict * string) :=
  match fuel with
  | O => None
  | S fuel =>
      match skip_ws s with
      | String c s' =>
          if Ascii.eqb c quote then
            match string_body s' with
            | Some (key, rest) =>
                match skip_ws rest with
                | String c' rest' =>
                    if Ascii.eqb c' ":"%char then
                      match parse_value fuel rest' with
                      | Some (v, rest'') =>
                          match skip_ws rest'' with
                          | String c'' rest''' =>
                              if Ascii.eqb c'' ","%char
                              then parse_members fuel rest''' (Py.set key v acc)
                              else if Ascii.eqb c'' "}"%char
                              then Some (Py.set key v acc, rest''')
                              else None
                          | EmptyString => None
                          end
                      | None => None
                      end
                    else None
                | EmptyString => None
                end
            | None => None
            end
          else None
      | EmptyString => None
      end
  end.

Definition loads (s : string) : outcome value :=
  match parse_value (2 * String.length s + 2) s with
  | Some (v, rest) =>
      match skip_ws rest with
      | EmptyString => Ret v
      | _ => Raise (PyError "JSONDecodeError" "Extra data")
      end
  | None => Raise (PyError "JSONDecodeError" "Expecting value")
  end.

End TinyJson.

(** The scripted services.  The world is [unit]: they remember nothing. *)
Module Script.

(** The extension from the last dot on, and the name after the last
    slash: enough of [os.path] for the file names of the examples. *)
Fixpoint splitext (name : string) : string * string :=
  match name with
  | EmptyString => (EmptyString, EmptyString)
  | String c rest =>
      let (root, ext) := splitext rest in
      match ext with
      | EmptyString =>
          if Ascii.eqb c "."%char then (EmptyString, name) else (String c root, ext)
      | _ => (String c root, ext)
      end
  end.

Fixpoint basename (path : string) : string :=
  match path with
  | EmptyString => EmptyString
  | String c rest =>
      if Str.contains "/" rest then basename rest
      else if Ascii.eqb c "/"%char then rest else path
  end.

Definition decimal (n : Z) : string := DecimalString.NilZero.string_of_int (Z.to_int n).

#[local] Instance runtime : Runtime := {|
  str_value v :=
    match v with
    | VStr s => s
    | VInt n => decimal n
    | VNone => "None"
    | VBool true => "True"
    | VBool false => "False"
    | _ => "<value>"
    end;
  str_exn e :=
    match e with
    | HTTPException status detail => decimal status +:+ ": " +:+ detail
    | PyError _ text => text
    end;
  os_path_splitext := splitext;
  os_path_basename := basename
|}.

#[local] Instance json : Json := {| json_loads := TinyJson.loads |}.

(** A Groq account that answers every request. *)
#[local] Instance groq : GroqCloud.GroqAPI unit := {|
  GroqCloud.GROQ_API_KEY := "gsk_example";
  GroqCloud.Groq _ w := (Ret tt, w);
  GroqCloud.transcriptions_create _ _ w :=
    (Ret {| GroqCloud.text := VStr "hello world";
            GroqCloud.language := Some (VStr "en");
            GroqCloud.segments := None |}, w);
  GroqCloud.completions_create _ _ _ w := (Ret [VStr "{}"], w);
  GroqCloud.completions_create_stream _ _ _ w :=
    (Ret {| GroqCloud.chunks := [[VStr "{"]; [VNone]; [VStr "}"]];
            GroqCloud.failure := None |}, w)
|}.

(** A Groq account whose every request fails in transport. *)
Definition groq_offline : GroqCloud.GroqAPI unit := {|
  GroqCloud.GROQ_API_KEY := "gsk_example";
  GroqCloud.Groq _ w := (Ret tt, w);
  GroqCloud.transcriptions_create _ _ w := (Raise (PyError "APIConnectionError" "Connection error."), w);
  GroqCloud.completions_create _ _ _ w := (Raise (PyError "APIConnectionError" "Connection error."), w);
  GroqCloud.completions_create_stream _ _ _ w :=
    (Ret {| GroqCloud.chunks := [[VStr "{"]];
            GroqCloud.failure := Some (PyError "APIConnectionError" "Connection error.") |}, w)
|}.

(** Three records of one user: an image with no [type] field, an audio
    clip with no [file_url], and an audio clip whose file is gone. *)
Definition record_image : dict :=
  [("id", VStr "m1"); ("file_url", VStr "https://cdn.example/a.png");
   ("file_name", VStr "a.png")].
Definition record_no_url : dict :=
  [("id", VStr "m2"); ("type", VStr "audio"); ("file_name", VStr "b.mp3")].
Definition record_gone : dict :=
  [("id", VStr "m3"); ("file_url", VStr "https://cdn.example/c.mp3");
   ("type", VStr "audio"); ("file_name", VStr "c.mp3")].
Definition records : list dict := [record_image; record_no_url; record_gone].

Definition respond (status : Z) (body : bytes) (rows : outcome (list dict))
  : SupabaseSync.Response :=
  {| SupabaseSync.status_code := status; SupabaseSync.content := body;
     SupabaseSync.json := rows |}.

Definition not_json : outcome (list dict) :=
  Raise (PyError "JSONDecodeError" "Expecting value").

(** A store that lists [records] for every user, whatever key is sent,
    serves [a.png], and answers 404 for any other address. *)
#[local] Instance http : SupabaseSync.HttpClient unit := {|
  SupabaseSync.client_get url _ _ w :=
    match url with
    | VStr address =>
        if String.eqb address "https://db.example/rest/v1/media"
        then (Ret (respond 200 [] (Ret records)), w)
        else if String.eqb address "https://cdn.example/a.png"
        then (Ret (respond 200 [Byte.x89; Byte.x50; Byte.x4e; Byte.x47] not_json), w)
        else (Ret (respond 404 [] not_json), w)
    | _ => (Raise (PyError "TypeError" "Invalid type for url"), w)
    end
|}.

#[local] Instance vision : SupabaseSync.VisionService unit := {|
  SupabaseSync.get_vision_api_service w := (Ret tt, w);
  SupabaseSync.analyze_frame _ w := (Ret (VDict [("visual_summary", VStr "a desk")]), w);
  SupabaseSync.convert_to_tags _ w := (Ret (VList [VStr "desk"]), w)
|}.

#[local] Instance memory : SupabaseSync.MemoryService unit := {|
  SupabaseSync.get_supermemory_service w := (Ret tt, w);
  SupabaseSync.add_memory _ _ _ w := (Ret tt, w)
|}.

#[local] Instance system : SupabaseSync.System unit := {|
  SupabaseSync.NamedTemporaryFile suffix w := (Ret ("/tmp/tmp0" +:+ suffix), w);
  SupabaseSync.f_write _ _ w := (SupabaseSync.AllWritten, w);
  SupabaseSync.now_isoformat w := ("2025-01-01T00:00:00", w)
|}.

Definition configured : SupabaseSync.SupabaseSyncService :=
  {| SupabaseSync.supabase_url := "https://db.example";
     SupabaseSync.supabase_key := "anon-key" |}.


(** Nothing is set. *)
Definition unconfigured : SupabaseSync.SupabaseSyncService :=
  {| SupabaseSync.supabase_url := ""; SupabaseSync.supabase_key := "" |}.

(** The twelve bytes of the text [not an image]; in base64 they read
    [bm90IGFuIGltYWdl]. *)
Definition not_an_image : bytes :=
  [Byte.x6e; Byte.x6f; Byte.x74; Byte.x20; Byte.x61; Byte.x6e; Byte.x20;
   Byte.x69; Byte.x6d; Byte.x61; Byte.x67; Byte.x65].

(** An OpenCV that reads a buffer as an image when it starts with the PNG
    signature byte, and finds one face in every image; a [base64] that
    knows one text. *)
#[local] Instance opencv : FaceDetection.OpenCV := {|
  FaceDetection.Image := bytes;
  FaceDetection.imdecode data :=
    match data with
    | Byte.x89 :: _ => Ret (Some data)
    | _ => Ret None
    end;
  FaceDetection.cvtColor img := Ret img;
  FaceDetection.face_cascade _ _ := Ret [(10, 20, 64, 64)];
  FaceDetection.eye_cascade _ := Ret [(5, 5, 8, 8); (30, 5, 8, 8)];
  FaceDetection.region img _ := img;
  FaceDetection.shape _ := (480, 640);
  FaceDetection.b64decode text :=
    if String.eqb text "bm90IGFuIGltYWdl"
    then Ret not_an_image
    else Raise (PyError "binascii.Error" "Incorrect padding")
|}.

#[local] Instance speech : WhisperServer.SpeechModel unit := {|
  WhisperServer.open_wb _ w := (Ret tt, w);
  WhisperServer.model_transcribe _ _ wf :=
    (Ret ([" hello"; " world"],
          {| WhisperServer.language := VStr "en";
             WhisperServer.language_probability := VFloat 0.98%float |}), wf)
|}.

(** A speech model that fails on every file. *)
Definition speech_broken : WhisperServer.SpeechModel unit := {|
  WhisperServer.open_wb _ w := (Ret tt, w);
  WhisperServer.model_transcribe _ _ wf := (Raise (PyError "RuntimeError" "invalid data"), wf)
|}.

(** A forensic log with no backtick in it, [{"room": "office"}], and one
    whose note quotes a fenced block, [{"inference_notes": "```{}```"}]. *)
Definition q : string := String TinyJson.quote EmptyString.

Definition plain_log : string :=
  "{" +:+ q +:+ "room" +:+ q +:+ ": " +:+ q +:+ "office" +:+ q +:+ "}".

Definition log_with_fence : string :=
  "{" +:+ q +:+ "inference_notes" +:+ q +:+ ": " +:+
  q +:+ Str.fence +:+ "{}" +:+ Str.fence +:+ q +:+ "}".

Definition text_upload : UploadFile :=
  {| filename := Some "note.txt"; file := Ret not_an_image |}.

Definition text_data_url : dict :=
  [("image", VStr "data:text/plain;base64,bm90IGFuIGltYWdl")].

Definition audio_upload : UploadFile :=
  {| filename := Some "a.wav"; file := Ret [Byte.x52; Byte.x49; Byte.x46; Byte.x46] |}.

(** An empty disk, no call made yet, no Groq service built yet. *)
Definition start : state unit :=
  {| world := tt; trace := []; files := ∅; _service_instance := None |}.

End Script.

(** ** The vocabulary of the specification *)

(** A count read from a summary, as [summary.get(k, 0)]: a count that the
    summary does not carry reads as zero. *)
Definition summary_count (summary : dict) (k : string) : Z :=
  match Py.get summary k (VInt 0) with
  | VInt n => n
  | _ => 0
  end.

(** The two shapes of a [SyncSummary]. *)
Definition no_media_summary : dict :=
  [("status", VStr "no_media"); ("processed", VInt 0); ("total", VInt 0)].

Definition completed_summary (processed total errors : Z) : dict :=
  [("status", VStr "completed"); ("processed", VInt processed);
   ("total", VInt total); ("errors", VInt errors)].

(** A record has a source URL when [if not file_url] lets it through. *)
Definition has_source_url (media : dict) : bool :=
  Py.truthy (Py.get media "file_url" (VStr "")).

(** The calls of the transcription path. *)
Definition is_transcription (ev : event) : bool :=
  match ev with
  | EvTranscription _ => true
  | _ => false
  end.

(** [emits P m]: whatever the outcome, [m] adds to the trace only calls
    that satisfy [P]. *)
Definition emits {W A} (P : event -> Prop) (m : M W A) : Prop :=
  forall s, exists evs, trace (snd (m s)) = trace s ++ evs /\ Forall P evs.

(** A result tagged as an error, with the given field left empty. *)
Definition tagged_error (result : dict) (field : string) : Prop :=
  Py.contains_key "error" result = true /\
  Py.lookup field result = Some (VStr "").

(** A run of white space, as [strip] removes it. *)
Fixpoint blank (s : string) : bool :=
  match s with
  | EmptyString => true
  | String c s' => Str.is_space c && blank s'
  end.

(** A text between Markdown code fences: the opening fence ([```] or
    [```json]), white space, the text, white space, the closing fence. *)
Definition wrap (opening before s after : string) : string :=
  opening +:+ before +:+ s +:+ after +:+ Str.fence.

(** The usual layout: each fence on a line of its own. *)
Definition fenced_json (s : string) : string :=
  wrap Str.fence_json Str.nl s Str.nl.

Definition fenced (s : string) : string :=
  wrap Str.fence Str.nl s Str.nl.

(** The dictionary [chat_completion] returns for a model output. *)
Definition completion_of (content : string) : dict :=
  [("content", VStr content); ("model", VStr GroqCloud.model_name)].

(** No occurrence of [sep] starts inside [a] when [a] is followed by [r]. *)
Fixpoint no_match (sep a r : string) : bool :=
  match a with
  | EmptyString => true
  | String c a' => negb (Str.startswith sep (a +:+ r)) && no_match sep a' r
  end.

(** ** More vocabulary *)

(** The requests to the store. *)
Definition is_http_get (ev : event) : bool :=
  match ev with
  | EvHttpGet _ => true
  | _ => false
  end.

(** [keeps_files m]: [m] leaves the disk as it found it. *)
Definition keeps_files {W A} (m : M W A) : Prop :=
  forall s, files (snd (m s)) = files s.

(** What [analyze_media] returns when it analysed nothing. *)
Definition blank_analysis (analyzed_at : string) : dict :=
  [("transcript", VNone); ("tags", VList []); ("description", VNone);
   ("analyzed_at", VStr analyzed_at)].

(** A segment as [transcribe_audio] reports it: a dictionary with the
    keys [text], [start] and [end], in that order. *)
Definition is_segment (v : value) : Prop :=
  exists t st en, v = VDict [("text", t); ("start", st); ("end", en)].

(** What a chunk of a stream carries when its first choice has the text
    [d], or no text. *)
Definition delta_value (d : option string) : value :=
  match d with
  | Some t => VStr t
  | None => VNone
  end.

(** The texts of a stream, one after the other. *)
Definition deltas_text (deltas : list (option string * list value)) : string :=
  foldr (fun d rest => default "" (fst d) +:+ rest) "" deltas.

(** The entries of a face report are numbered from one, in order. *)
Definition numbered (entries : list value) : Prop :=
  forall i entry,
    nth_error entries i = Some entry ->
    exists d, entry = VDict d /\ Py.lookup "id" d = Some (VInt (Z.of_nat i + 1)).

(** A face report: the count, then as many numbered entries, then what
    else the endpoint adds. *)
Definition face_report (body : value) : Prop :=
  exists entries rest,
    body = VDict (("face_count", VInt (Z.of_nat (length entries)))
                  :: ("faces", VList entries) :: rest) /\
    numbered entries.

(** ** More scripted collaborators *)

Module Cases.
Import Script.

(** A store that lists [records] and has lost every file: a request with
    no header, as the downloads make them, is answered 404. *)
Definition http_listing_only : SupabaseSync.HttpClient unit := {|
  SupabaseSync.client_get _ headers _ w :=
    match headers with
    | [] => (Ret (respond 404 [] not_json), w)
    | _ => (Ret (respond 200 [] (Ret records)), w)
    end
|}.

(** A store whose every file is empty. *)
Definition http_hollow : SupabaseSync.HttpClient unit := {|
  SupabaseSync.client_get _ headers _ w :=
    match headers with
    | [] => (Ret (respond 200 [] not_json), w)
    | _ => (Ret (respond 200 [] (Ret records)), w)
    end
|}.

(** A speech model that hears nothing. *)
Definition speech_silent : WhisperServer.SpeechModel unit := {|
  WhisperServer.open_wb _ w := (Ret tt, w);
  WhisperServer.model_transcribe _ _ wf :=
    (Ret ([" "; ""; Str.nl +:+ " "],
          {| WhisperServer.language := VStr "en";
             WhisperServer.language_probability := VFloat 0.5%float |}), wf)
|}.

(** The service as [get_groq_cloud_service] keeps it when the key is not
    set. *)
Definition service_without_key : GroqCloudService :=
  {| api_key := ""; client := false; available := false |}.

Definition service_with_key : GroqCloudService :=
  {| api_key := "gsk_example"; client := true; available := true |}.

(** No call made yet, the Groq service already built without a key. *)
Definition start_without_groq : state unit :=
  {| world := tt; trace := []; files := ∅;
     _service_instance := Some service_without_key |}.

(** A disk that holds a recording and a note. *)
Definition clip : bytes := [Byte.x52; Byte.x49; Byte.x46; Byte.x46].

Definition start_with_files : state unit :=
  {| world := tt; trace := [];
     files := {[ "/data/clip.wav" := clip; "/data/note.txt" := not_an_image ]};
     _service_instance := None |}.

(** An analysis whose one tag has a label and no name. *)
Definition analysis_with_unnamed_tag : dict :=
  [("transcript", VNone);
   ("tags", VList [VDict [("label", VStr "desk")]]);
   ("description", VStr "a desk")].

Definition png_upload : UploadFile :=
  {| filename := Some "a.png"; file := Ret [Byte.x89; Byte.x50; Byte.x4e; Byte.x47] |}.

Definition raw_base64 : dict := [("image", VStr "bm90IGFuIGltYWdl")].

(** A disk that takes two bytes of a temporary file and is full. *)
Definition system_disk_full : SupabaseSync.System unit := {|
  SupabaseSync.NamedTemporaryFile suffix w := (Ret ("/tmp/tmp0" +:+ suffix), w);
  SupabaseSync.f_write _ _ w :=
    (SupabaseSync.WriteFailed (PyError "OSError" "No space left on device") 2, w);
  SupabaseSync.now_isoformat w := ("2025-01-01T00:00:00", w)
|}.

(** A Groq account whose key is refused when the client is built. *)
Definition groq_rejected : GroqCloud.GroqAPI unit := {|
  GroqCloud.GROQ_API_KEY := "gsk_example";
  GroqCloud.Groq _ w := (Raise (PyError "AuthenticationError" "Invalid API Key"), w);
  GroqCloud.transcriptions_create _ _ w :=
    (Raise (PyError "AuthenticationError" "Invalid API Key"), w);
  GroqCloud.completions_create _ _ _ w :=
    (Raise (PyError "AuthenticationError" "Invalid API Key"), w);
  GroqCloud.completions_create_stream _ _ _ w :=
    (Raise (PyError "AuthenticationError" "Invalid API Key"), w)
|}.

End Cases.

(** * Properties *)

Ltac run := unfold bind, ret, raise, lift, try_except, try_finally in *.

(** ** The sync orchestrator *)

Section SyncProperties.
Import SupabaseSync.
Context {W : Type} `{Runtime} `{Json} `{GroqCloud.GroqAPI W}
        `{HttpClient W} `{VisionService W} `{MemoryService W} `{System W}.

Lemma get_user_media_returns (self : SupabaseSyncService) user_id (s : state W) :
  exists media_list s', get_user_media self user_id s = (Ret media_list, s').
Proof.
  unfold get_user_media.
  destruct (String.eqb _ _); [run; eauto|].
  run.
  destruct (call _ _ s) as [[response|e] s1]; [|eauto].
  destruct (status_code response =? 200); [|eauto].
  destruct (json response); eauto.
Qed.

(** The listing leaves the disk alone and makes at most one call, the
    query of the media table. *)
Lemma get_user_media_effects (self : SupabaseSyncService) user_id (s : state W) r s' :
  get_user_media self user_id s = (r, s') ->
  files s' = files s /\
  (trace s' = trace s \/
   trace s' = trace s ++ [EvHttpGet (VStr (media_url self))]).
Proof.
  unfold get_user_media.
  destruct (String.eqb _ _).
  { run. intros [= <- <-]. auto. }
  run. unfold call.
  destruct (client_get _ _ _ (world s)) as [[response|e] w'].
  - destruct (status_code response =? 200);
      [destruct (json response)|]; intros [= <- <-]; simpl; auto.
  - intros [= <- <-]. simpl. auto.
Qed.

(** One pass of the loop returns, and moves exactly one counter by one
    when the record has a source URL, none otherwise. *)
Lemma sync_record_counts self user_id media processed errors (s : state W) :
  exists processed' errors' s',
    sync_record self user_id media (processed, errors) s
      = (Ret (processed', errors'), s') /\
    processed <= processed' /\ errors <= errors' /\
    processed' + errors' =
      processed + errors + (if has_source_url media then 1 else 0).
Proof.
  unfold sync_record, has_source_url.
  destruct (Py.truthy (Py.get media "file_url" _)); simpl.
  2:{ run. exists processed, errors, s. repeat split; lia. }
  run.
  destruct (download_media _ _ s) as [[file_bytes|e] s1].
  2:{ exists processed, (errors + 1), s1. repeat split; lia. }
  destruct (negb (Py.truthy_bytes file_bytes)).
  { exists processed, (errors + 1), s1. repeat split; lia. }
  destruct (analyze_media _ _ _ s1) as [[analysis|e] s2].
  2:{ exists processed, (errors + 1), s2. repeat split; lia. }
  destruct (store_to_supermemory _ _ _ _ _ s2) as [[[|]|e] s3].
  - exists (processed + 1), errors, s3. repeat split; lia.
  - exists processed, (errors + 1), s3. repeat split; lia.
  - exists processed, (errors + 1), s3. repeat split; lia.
Qed.

Lemma sync_loop_counts self user_id media_list :
  forall processed errors (s : state W),
  exists processed' errors' s',
    sync_loop self user_id media_list (processed, errors) s
      = (Ret (processed', errors'), s') /\
    processed <= processed' /\ errors <= errors' /\
    processed' + errors' =
      processed + errors + Z.of_nat (length (List.filter has_source_url media_list)).
Proof.
  induction media_list as [|media rest IH]; intros processed errors s.
  - exists processed, errors, s. simpl. repeat split; lia.
  - destruct (sync_record_counts self user_id media processed errors s)
      as (p1 & e1 & s1 & Hrec & Hp & He & Hsum).
    destruct (IH p1 e1 s1) as (p2 & e2 & s2 & Hloop & Hp2 & He2 & Hsum2).
    exists p2, e2, s2. cbn [sync_loop]. unfold bind at 1. rewrite Hrec, Hloop.
    repeat split; try lia.
    rewrite Hsum2, Hsum. cbn [List.filter].
    destruct (has_source_url media); cbn [length]; lia.
Qed.

(** A run returns one of the two summaries; in the completed one the two
    counters add up to the number of records that have a source URL. *)
Lemma sync_user_media_cases self user_id (s : state W) :
  exists media_list s1,
    get_user_media self user_id s = (Ret media_list, s1) /\
    match media_list with
    | [] => sync_user_media self user_id s = (Ret no_media_summary, s1)
    | _ =>
        exists processed errors s2,
          sync_user_media self user_id s
            = (Ret (completed_summary processed (Z.of_nat (length media_list)) errors), s2) /\
          0 <= processed /\ 0 <= errors /\
          processed + errors =
            Z.of_nat (length (List.filter has_source_url media_list))
    end.
Proof.
  destruct (get_user_media_returns self user_id s) as (media_list & s1 & Hlist).
  exists media_list, s1. split; [exact Hlist|].
  destruct media_list as [|media rest].
  - unfold sync_user_media, bind. rewrite Hlist. reflexivity.
  - destruct (sync_loop_counts self user_id (media :: rest) 0 0 s1)
      as (p & e & s2 & Hloop & Hp & He & Hsum).
    exists p, e, s2. unfold sync_user_media, bind. rewrite Hlist, Hloop.
    repeat split; auto.
Qed.

Lemma filter_length_lt {A} (f : A -> bool) (x : A) (l : list A) :
  In x l -> f x = false -> (length (List.filter f l) < length l)%nat.
Proof.
  induction l as [|y l IH]; simpl; [tauto|].
  pose proof (List.filter_length_le f l) as Hle.
  intros [->|Hin] Hx.
  - rewrite Hx. lia.
  - specialize (IH Hin Hx). destruct (f y); simpl; lia.
Qed.

(** C1.  Every run of [sync_user_media] returns a summary, whatever the
    records and whatever the downloads, the analyses and the stores do;
    in it [processed + errors <= total] (an error count the summary does
    not carry reads as zero), and the status is ["completed"] whenever
    [total > 0]. *)
Theorem sync_summary_invariant self user_id (s : state W) :
  exists summary s',
    sync_user_media self user_id s = (Ret summary, s') /\
    exists processed total,
      Py.lookup "processed" summary = Some (VInt processed) /\
      Py.lookup "total" summary = Some (VInt total) /\
      0 <= processed /\ 0 <= summary_count summary "errors" /\
      processed + summary_count summary "errors" <= total /\
      (0 < total -> Py.lookup "status" summary = Some (VStr "completed")).
Proof.
  destruct (sync_user_media_cases self user_id s) as (media_list & s1 & _ & Hrun).
  destruct media_list as [|media rest].
  - exists no_media_summary, s1. split; [exact Hrun|].
    exists 0, 0. cbn. repeat split; lia.
  - destruct Hrun as (p & e & s2 & Hrun & Hp & He & Hsum).
    eexists _, s2. split; [exact Hrun|].
    exists p, (Z.of_nat (length (media :: rest))).
    pose proof (List.filter_length_le has_source_url (media :: rest)) as Hle.
    change (summary_count (completed_summary p (Z.of_nat (length (media :: rest))) e) "errors")
      with e.
    repeat split; try reflexivity; lia.
Qed.

(** C3.  A record of the fetched list that lacks a source URL moves
    neither counter (its pass of the loop returns the counters, and the
    state, as they were), the total still counts it, being the length of
    the list, and so [processed + errors < total] for the run. *)
Theorem missing_url_counts_nowhere self user_id (s s1 : state W) media_list media :
  get_user_media self user_id s = (Ret media_list, s1) ->
  In media media_list ->
  has_source_url media = false ->
  (forall counters s0,
     sync_record self user_id media counters s0 = (Ret counters, s0)) /\
  exists summary s',
    sync_user_media self user_id s = (Ret summary, s') /\
    summary_count summary "total" = Z.of_nat (length media_list) /\
    summary_count summary "processed" + summary_count summary "errors"
      < summary_count summary "total".
Proof.
  intros Hlist Hin Hurl. split.
  - intros [processed errors] s0. unfold sync_record.
    unfold has_source_url in Hurl. rewrite Hurl. reflexivity.
  - destruct (sync_user_media_cases self user_id s) as (l & s1' & Hlist' & Hrun).
    rewrite Hlist in Hlist'. injection Hlist' as <- <-.
    destruct media_list as [|m rest]; [destruct Hin|].
    destruct Hrun as (p & e & s2 & Hrun & Hp & He & Hsum).
    eexists _, s2. split; [exact Hrun|].
    pose proof (filter_length_lt has_source_url media (m :: rest) Hin Hurl) as Hlt.
    change (summary_count (completed_summary p (Z.of_nat (length (m :: rest))) e) "total")
      with (Z.of_nat (length (m :: rest))).
    change (summary_count (completed_summary p (Z.of_nat (length (m :: rest))) e) "processed")
      with p.
    change (summary_count (completed_summary p (Z.of_nat (length (m :: rest))) e) "errors")
      with e.
    split; [reflexivity | lia].
Qed.

(** C4.  When the fetched list is empty the run returns exactly
    [{status: "no_media", processed: 0, total: 0}] in the state the
    listing left: the disk is untouched and the only call made, if any,
    is the query of the media table; nothing is downloaded, analysed or
    stored. *)
Theorem no_media_short_circuit self user_id (s s1 : state W) :
  get_user_media self user_id s = (Ret [], s1) ->
  sync_user_media self user_id s
    = (Ret [("status", VStr "no_media"); ("processed", VInt 0); ("total", VInt 0)], s1) /\
  files s1 = files s /\
  (trace s1 = trace s \/
   trace s1 = trace s ++ [EvHttpGet (VStr (media_url self))]).
Proof.
  intros Hlist. split.
  - unfold sync_user_media, bind. rewrite Hlist. reflexivity.
  - eapply get_user_media_effects, Hlist.
Qed.


End SyncProperties.

(** ** Which calls a computation makes *)

Section Emits.
Context {W : Type} (P : event -> Prop).

Lemma emits_nothing {A} (m : M W A) :
  (forall s, trace (snd (m s)) = trace s) -> emits P m.
Proof. intros Hm s. exists []. rewrite Hm, app_nil_r. auto. Qed.

Lemma emits_ret {A} (a : A) : emits P (ret a : M W A).
Proof. apply emits_nothing. reflexivity. Qed.

Lemma emits_raise {A} e : emits P (raise e : M W A).
Proof. apply emits_nothing. reflexivity. Qed.

Lemma emits_lift {A} (r : outcome A) : emits P (lift r : M W A).
Proof. apply emits_nothing. reflexivity. Qed.

Lemma emits_call {A} ev (f : W -> outcome A * W) : P ev -> emits P (call ev f).
Proof.
  intros Hev s. exists [ev]. unfold call.
  destruct (f (world s)) as [r w']. simpl. auto.
Qed.

(** A computation [k] that runs [m] and goes on from its outcome. *)
Lemma emits_seq {A B} (m : M W A) (k : M W B) (next : outcome A -> M W B) :
  emits P m -> (forall r, emits P (next r)) ->
  (forall s, k s = next (fst (m s)) (snd (m s))) ->
  emits P k.
Proof.
  intros Hm Hnext Hk s. rewrite Hk.
  destruct (Hm s) as (evs1 & E1 & F1).
  destruct (Hnext (fst (m s)) (snd (m s))) as (evs2 & E2 & F2).
  exists (evs1 ++ evs2). rewrite E2, E1, app_assoc. split; [reflexivity|].
  apply Forall_app; auto.
Qed.

Lemma emits_bind {A B} (m : M W A) (k : A -> M W B) :
  emits P m -> (forall a, emits P (k a)) -> emits P (bind m k).
Proof.
  intros Hm Hk.
  apply (emits_seq m _ (fun r => match r with Ret a => k a | Raise e => raise e end));
    [assumption | intros [a|e]; [apply Hk | apply emits_raise] |].
  intros s. unfold bind. destruct (m s) as [[a|e] s']; reflexivity.
Qed.

Lemma emits_try_except {A} (m : M W A) (h : exn -> M W A) :
  emits P m -> (forall e, emits P (h e)) -> emits P (try_except m h).
Proof.
  intros Hm Hh.
  apply (emits_seq m _ (fun r => match r with Ret a => ret a | Raise e => h e end));
    [assumption | intros [a|e]; [apply emits_ret | apply Hh] |].
  intros s. unfold try_except. destruct (m s) as [[a|e] s']; reflexivity.
Qed.

Lemma emits_try_finally {A} (m : M W A) (c : M W unit) :
  emits P m -> emits P c -> emits P (try_finally m c).
Proof.
  intros Hm Hc.
  apply (emits_seq m _
           (fun r s => match c s with
                       | (Ret _, s') => (r, s')
                       | (Raise e, s') => (Raise e, s')
                       end)); [assumption | |].
  - intros r s. destruct (Hc s) as (evs & E & F). exists evs.
    destruct (c s) as [[u|e] s']; auto.
  - intros s. unfold try_finally. destruct (m s) as [r s']. reflexivity.
Qed.

Lemma emits_for_each {A B} (f : A -> M W B) (xs : list A) :
  (forall x, emits P (f x)) -> emits P (for_each f xs).
Proof.
  intros Hf. induction xs as [|x xs IH]; simpl.
  - apply emits_ret.
  - apply emits_bind; [apply Hf|]. intros y.
    apply emits_bind; [apply IH|]. intros ys. apply emits_ret.
Qed.

Lemma emits_get_files : emits P (get_files : M W _).
Proof. apply emits_nothing. reflexivity. Qed.

Lemma emits_put_files fs : emits P (put_files fs : M W _).
Proof. apply emits_nothing. reflexivity. Qed.

Lemma emits_get_instance : emits P (get_instance : M W _).
Proof. apply emits_nothing. reflexivity. Qed.

Lemma emits_put_instance i : emits P (put_instance i : M W _).
Proof. apply emits_nothing. reflexivity. Qed.

Lemma emits_if {A} (b : bool) (m1 m2 : M W A) :
  emits P m1 -> emits P m2 -> emits P (if b then m1 else m2).
Proof. destruct b; auto. Qed.

End Emits.

Ltac emits_step :=
  first
    [ apply emits_ret | apply emits_raise | apply emits_lift
    | apply emits_get_files | apply emits_put_files
    | apply emits_get_instance | apply emits_put_instance
    | apply emits_bind; [|intros ?]
    | apply emits_try_except; [|intros ?]
    | apply emits_try_finally
    | apply emits_for_each; intros ?
    | apply emits_call; simpl; auto
    | apply emits_if
    | match goal with
      | |- emits _ (match ?x with _ => _ end) => destruct x
      end ].

Ltac emits_auto := repeat emits_step.

Section SyncCalls.
Import SupabaseSync.
Context {W : Type} `{Runtime} `{Json} `{GroqCloud.GroqAPI W}
        `{HttpClient W} `{VisionService W} `{MemoryService W} `{System W}.

Let quiet (ev : event) : Prop := is_transcription ev = false.

Lemma download_media_quiet self url : emits (W:=W) quiet (download_media self url).
Proof. unfold download_media. emits_auto; reflexivity. Qed.

Lemma get_groq_cloud_service_quiet :
  emits (W:=W) quiet GroqCloud.get_groq_cloud_service.
Proof.
  unfold GroqCloud.get_groq_cloud_service, GroqCloud.__init__.
  emits_auto; reflexivity.
Qed.

Lemma vision_path_quiet temp_path result :
  emits (W:=W) quiet (vision_path temp_path result).
Proof. unfold vision_path. emits_auto; reflexivity. Qed.

Lemma store_to_supermemory_quiet media_id user_id analysis media_type name :
  emits (W:=W) quiet (store_to_supermemory media_id user_id analysis media_type name).
Proof. unfold store_to_supermemory. emits_auto; reflexivity. Qed.

Lemma ask_write_quiet temp_path file_bytes :
  emits (W:=W) quiet (ask_write temp_path file_bytes).
Proof.
  apply emits_nothing. intros s. unfold ask_write.
  destruct (f_write temp_path file_bytes (world s)). reflexivity.
Qed.

Lemma analyze_image_quiet file_bytes name :
  emits (W:=W) quiet (analyze_media file_bytes (VStr "image") name).
Proof.
  unfold analyze_media, analysis_paths, save_temp_file.
  cbn [Py.in_strings existsb String.eqb Ascii.eqb Bool.eqb orb].
  unfold write_file, os_remove.
  emits_auto; try reflexivity;
    try apply vision_path_quiet; try apply get_groq_cloud_service_quiet;
    try apply ask_write_quiet.
Qed.

(** The first thing the vision path does is to reach for the vision
    service. *)
Lemma vision_path_calls_vision temp_path result (s : state W) :
  exists evs,
    trace (snd (vision_path temp_path result s)) = trace s ++ EvVisionService :: evs /\
    Forall quiet evs.
Proof.
  unfold vision_path, try_except, bind at 1, call at 1.
  destruct (get_vision_api_service (world s)) as [[[]|e] w1].
  2:{ exists []. split; [reflexivity | constructor]. }
  match goal with
  | |- context [?k {| world := w1; trace := ?t; files := ?f; _service_instance := ?i |}] =>
      set (s1 := {| world := w1; trace := t; files := f; _service_instance := i |});
      set (rest := k)
  end.
  assert (Hrest : emits quiet rest).
  { subst rest. emits_auto; reflexivity. }
  destruct (Hrest s1) as (evs & Hevs & Hquiet).
  exists evs. split; [|exact Hquiet].
  destruct (rest s1) as [[r|e] s2]; simpl in *; rewrite Hevs; subst s1; simpl;
    rewrite <- app_assoc; reflexivity.
Qed.

(** With the service available, a file name that is a string and a
    temporary file that is created and written, the analysis of an image
    asks the clock, makes the temporary file, and goes to the vision
    service. *)
Lemma analyze_image_calls file_bytes name groq (s1 s2 : state W) :
  GroqCloud.get_groq_cloud_service s1 = (Ret groq, s2) ->
  available groq = true ->
  (forall suffix w, exists temp_path w', NamedTemporaryFile suffix w = (Ret temp_path, w')) ->
  (forall temp_path data w, exists w', f_write temp_path data w = (AllWritten, w')) ->
  exists suffix evs,
    trace (snd (analyze_media file_bytes (VStr "image") (VStr name) s1))
      = trace s2 ++ EvClock :: EvTempFile suffix :: EvVisionService :: evs /\
    Forall quiet evs.
Proof.
  intros Hgroq Hon Htemp Hwrite.
  unfold analyze_media, bind at 1. rewrite Hgroq.
  unfold bind at 1, call at 1.
  destruct (now_isoformat (world s2)) as [t w3].
  rewrite Hon. cbn [negb].
  unfold bind at 1, ret at 1.
  set (suffix := if String.eqb (snd (os_path_splitext name)) "" then ".tmp"
                 else snd (os_path_splitext name)).
  exists suffix.
  unfold bind at 1, save_temp_file, bind at 1, call at 1. cbn [world].
  destruct (Htemp suffix w3) as (temp_path & w4 & ->).
  unfold bind at 1, write_file at 1, bind at 1, get_files, put_files.
  unfold bind at 1, ask_write. cbn [world].
  destruct (Hwrite temp_path file_bytes w4) as (w5 & ->).
  unfold bind at 1, write_file, bind at 1, get_files, put_files, ret at 1.
  cbn [trace files world _service_instance].
  unfold analysis_paths.
  cbn [Py.in_strings existsb String.eqb Ascii.eqb Bool.eqb orb].
  unfold bind at 1, ret at 1, try_finally.
  match goal with
  | |- context [vision_path temp_path ?result ?s4] =>
      destruct (vision_path_calls_vision temp_path result s4) as (evs & Hevs & Hquiet);
      destruct (vision_path temp_path result s4) as [r s5]
  end.
  exists evs. split; [|exact Hquiet].
  assert (Hcleanup : forall s0 : state W,
            trace (snd (try_except (os_remove temp_path) (fun _ => ret tt) s0)) = trace s0).
  { intros s0. unfold try_except, os_remove, bind, get_files, put_files, raise, ret.
    destruct (files s0 !! temp_path); reflexivity. }
  specialize (Hcleanup s5).
  destruct (try_except (os_remove temp_path) (fun _ => ret tt) s5) as [[u|e] s6];
    cbn [snd] in *; rewrite Hcleanup, Hevs; cbn [trace];
    rewrite <- !app_assoc; reflexivity.
Qed.

(** C10.  For a record that has a source URL and no [type] field the
    type is ["image"]; on that type the analysis is the vision path and
    nothing else, and the vision path does reach for the vision service;
    no transcription call is made while the record is processed.  When
    the processing of such a record gets to the analysis (the file is
    downloaded and not empty, the Groq service is available, the file
    name is a string, the temporary file is created and written), what
    [sync_record] does next is to ask the clock, make the temporary file
    and call the vision service, and no transcription follows. *)
Theorem typeless_record_runs_vision_only self user_id media :
  has_source_url media = true ->
  Py.lookup "type" media = None ->
  Py.get media "type" (VStr "image") = VStr "image" /\
  (forall groq temp_path result (s : state W),
     analysis_paths groq (Py.get media "type" (VStr "image")) temp_path result s
       = vision_path temp_path result s /\
     exists evs,
       trace (snd (vision_path temp_path result s))
         = trace s ++ EvVisionService :: evs) /\
  (forall counters (s : state W),
     exists evs,
       trace (snd (sync_record self user_id media counters s)) = trace s ++ evs /\
       Forall (fun ev => is_transcription ev = false) evs) /\
  (forall counters file_bytes name groq (s s1 s2 : state W),
     download_media self (Py.get media "file_url" (VStr "")) s = (Ret (Some file_bytes), s1) ->
     file_bytes <> [] ->
     GroqCloud.get_groq_cloud_service s1 = (Ret groq, s2) ->
     available groq = true ->
     Py.get media "file_name" (VStr "file") = VStr name ->
     (forall suffix w, exists temp_path w', NamedTemporaryFile suffix w = (Ret temp_path, w')) ->
     (forall temp_path data w, exists w', f_write temp_path data w = (AllWritten, w')) ->
     exists suffix evs,
       trace (snd (sync_record self user_id media counters s))
         = trace s2 ++ EvClock :: EvTempFile suffix :: EvVisionService :: evs /\
       Forall (fun ev => is_transcription ev = false) evs).
Proof.
  intros Hurl Htype.
  assert (Hget : Py.get media "type" (VStr "image") = VStr "image").
  { unfold Py.get. rewrite Htype. reflexivity. }
  split; [exact Hget|]. split; [|split].
  - intros groq temp_path result s. rewrite Hget. split.
    + reflexivity.
    + destruct (vision_path_calls_vision temp_path result s) as (evs & Hevs & _).
      exists evs. exact Hevs.
  - intros [processed errors].
    change (emits quiet (sync_record self user_id media (processed, errors))).
    unfold sync_record. rewrite Hget.
    destruct (negb (Py.truthy _)); [apply emits_ret|].
    apply emits_try_except; [|intros e; apply emits_ret].
    apply emits_bind; [apply download_media_quiet|]. intros file_bytes.
    destruct (negb (Py.truthy_bytes _)); [apply emits_ret|].
    apply emits_bind; [apply analyze_image_quiet|]. intros analysis.
    apply emits_bind; [apply store_to_supermemory_quiet|].
    intros [|]; apply emits_ret.
  - intros [processed errors] file_bytes name groq s s1 s2
      Hdownload Hbytes Hgroq Hon Hname Htemp Hwrite.
    unfold has_source_url in Hurl.
    unfold sync_record. rewrite Hget, Hname, Hurl. cbn [negb].
    unfold try_except, bind at 1. rewrite Hdownload.
    assert (Htruthy : Py.truthy_bytes (Some file_bytes) = true).
    { destruct file_bytes; [congruence | reflexivity]. }
    rewrite Htruthy. cbn [negb].
    change (default [] (Some file_bytes)) with file_bytes.
    destruct (analyze_image_calls file_bytes name groq s1 s2 Hgroq Hon Htemp Hwrite)
      as (suffix & evs & Hevs & Hquiet).
    exists suffix.
    unfold bind at 1.
    destruct (analyze_media file_bytes (VStr "image") (VStr name) s1)
      as [[analysis|e] s3]; cbn [snd] in Hevs.
    2:{ exists evs. split; [exact Hevs | exact Hquiet]. }
    destruct (store_to_supermemory_quiet (Py.get media "id" (VStr "")) user_id analysis
                (VStr "image") (VStr name) s3) as (evs' & Hevs' & Hquiet').
    exists (evs ++ evs'). split; [|apply Forall_app; split; assumption].
    unfold bind.
    destruct (store_to_supermemory _ _ _ _ _ s3) as [[[|]|e] s4];
      cbn [snd] in Hevs'; unfold try_except, ret; cbn [snd];
      rewrite Hevs', Hevs; rewrite <- app_assoc; reflexivity.
Qed.

End SyncCalls.

(** ** The media-store gateway *)

Section MediaStoreProperties.
Import SupabaseSync.
Context {W : Type} `{Runtime} `{Json} `{GroqCloud.GroqAPI W}
        `{HttpClient W} `{VisionService W} `{MemoryService W} `{System W}.


End MediaStoreProperties.

(** ** The AI gateway *)

Section GroqProperties.
Import GroqCloud.
Context {W : Type} `{Runtime} `{Json} `{GroqAPI W}.

Lemma tagged_transcribe_error msg : tagged_error (transcribe_error msg) "text".
Proof. split; reflexivity. Qed.

Lemma tagged_chat_error msg : tagged_error (chat_error msg) "content".
Proof. split; reflexivity. Qed.

(** A transport failure of the transcription request is a failure of
    the guarded block. *)
Lemma transcribe_audio_body_transport audio_path data e w' (s : state W) :
  files s !! audio_path = Some data ->
  transcriptions_create (os_path_basename audio_path) data (world s) = (Raise e, w') ->
  exists s1, transcribe_audio_body audio_path s = (Raise e, s1).
Proof.
  intros Hfile Hcall. unfold transcribe_audio_body, read_file, bind, get_files, call, ret.
  rewrite Hfile. cbn. rewrite Hcall. eauto.
Qed.

(** So is a segment that is not a dictionary, which has no [get] (a
    decoding failure). *)
Lemma transcribe_audio_body_decoding audio_path data t w' (s : state W) seg rest e :
  files s !! audio_path = Some data ->
  transcriptions_create (os_path_basename audio_path) data (world s) = (Ret t, w') ->
  segments t = Some (VList (seg :: rest)) ->
  PyOps.get seg "text" (VStr "") = Raise e ->
  exists s1, transcribe_audio_body audio_path s = (Raise e, s1).
Proof.
  intros Hfile Hcall Hsegs Hseg.
  unfold transcribe_audio_body, read_file, bind, get_files, call, ret, lift.
  rewrite Hfile. cbn. rewrite Hcall, Hsegs. cbn.
  unfold bind, lift, segment_entry. rewrite Hseg. eauto.
Qed.

Lemma chat_completion_body_transport messages temperature max_tokens e w' (s : state W) :
  completions_create messages temperature max_tokens (world s) = (Raise e, w') ->
  exists s1, chat_completion_body messages temperature max_tokens false s = (Raise e, s1).
Proof.
  intros Hcall. unfold chat_completion_body, bind, call. rewrite Hcall. eauto.
Qed.

Lemma chat_completion_body_no_choice messages temperature max_tokens w' (s : state W) :
  completions_create messages temperature max_tokens (world s) = (Ret [], w') ->
  exists e s1, chat_completion_body messages temperature max_tokens false s = (Raise e, s1).
Proof.
  intros Hcall. unfold chat_completion_body, bind, call, lift. rewrite Hcall. cbn. eauto.
Qed.

(** C6.  [transcribe_audio] and [chat_completion] return on every input:
    no exception reaches the caller.  When the service is unavailable,
    and whenever the guarded block raises (opening the file, the
    request, reading the response), the result carries an ["error"] key,
    the text of the exception under it, and an empty [text] (or
    [content]). *)
Theorem gateway_returns_tagged_errors (self : GroqCloudService) :
  (forall audio_path (s : state W),
     exists result s',
       transcribe_audio self audio_path s = (Ret result, s') /\
       (available self = false -> tagged_error result "text") /\
       (forall e s1,
          available self = true ->
          transcribe_audio_body audio_path s = (Raise e, s1) ->
          tagged_error result "text" /\
          Py.lookup "error" result = Some (VStr (str_exn e)))) /\
  (forall messages temperature max_tokens stream (s : state W),
     exists result s',
       chat_completion self messages temperature max_tokens stream s = (Ret result, s') /\
       (available self = false -> tagged_error result "content") /\
       (forall e s1,
          available self = true ->
          chat_completion_body messages temperature max_tokens stream s = (Raise e, s1) ->
          tagged_error result "content" /\
          Py.lookup "error" result = Some (VStr (str_exn e)))).
Proof.
  split.
  - intros audio_path s. unfold transcribe_audio.
    destruct (available self); cbn [negb].
    + unfold try_except.
      destruct (transcribe_audio_body audio_path s) as [[result|e] s1].
      * exists result, s1. split; [reflexivity|]. split; [discriminate|].
        intros e s2 _ [=].
      * eexists _, _. split; [reflexivity|]. split; [discriminate|].
        intros e' s2 _ [= <- <-]. split; [apply tagged_transcribe_error | reflexivity].
    + eexists _, _. split; [reflexivity|].
      split; [intros _; apply tagged_transcribe_error | discriminate].
  - intros messages temperature max_tokens stream s. unfold chat_completion.
    destruct (available self); cbn [negb].
    + unfold try_except.
      destruct (chat_completion_body _ _ _ _ s) as [[result|e] s1].
      * exists result, s1. split; [reflexivity|]. split; [discriminate|].
        intros e s2 _ [=].
      * eexists _, _. split; [reflexivity|]. split; [discriminate|].
        intros e' s2 _ [= <- <-]. split; [apply tagged_chat_error | reflexivity].
    + eexists _, _. split; [reflexivity|].
      split; [intros _; apply tagged_chat_error | discriminate].
Qed.

End GroqProperties.

(** ** The face-detection server *)

Section FaceProperties.
Import FaceDetection.
Context {W : Type} `{Runtime} `{OpenCV}.

(** C2.  What the two handlers do with a buffer that [imdecode] cannot
    read: the [HTTPException] with status 400 is raised inside the [try]
    block, the [except Exception] clause around it catches it, and the
    response is a 500 whose detail is the text of the 400. *)
Theorem undecodable_image_answers_500
    (upload : UploadFile) (data : dict) (image payload : string)
    (contents : bytes) (s : state W) :
  file upload = Ret contents ->
  Py.get data "image" VNone = VStr image ->
  Py.truthy (VStr image) = true ->
  (if Str.contains "," image
   then PyOps.index (Str.split "," image) 1
   else Ret image) = Ret payload ->
  b64decode payload = Ret contents ->
  imdecode contents = Ret None ->
  detect_faces_body upload s
    = (Raise (HTTPException 400 "Could not decode image"), s) /\
  detect_faces upload s
    = (Raise (HTTPException 500 (str_exn (HTTPException 400 "Could not decode image"))), s) /\
  http_status (fst (detect_faces upload s)) = 500 /\
  detect_faces_base64_body data s
    = (Raise (HTTPException 400 "Could not decode image"), s) /\
  detect_faces_base64 data s
    = (Raise (HTTPException 500 (str_exn (HTTPException 400 "Could not decode image"))), s) /\
  http_status (fst (detect_faces_base64 data s)) = 500.
Proof.
  intros Hread Himage Hne Hpayload Hb64 Hdecode.
  assert (Hbody : detect_faces_body upload s
                  = (Raise (HTTPException 400 "Could not decode image"), s)).
  { unfold detect_faces_body, bind, lift. rewrite Hread, Hdecode. reflexivity. }
  assert (Hbody64 : detect_faces_base64_body data s
                    = (Raise (HTTPException 400 "Could not decode image"), s)).
  { unfold detect_faces_base64_body. rewrite Himage.
    rewrite Hne. cbn [negb]. unfold bind, lift, ret in *.
    destruct (Str.contains "," image).
    - rewrite Hpayload, Hb64, Hdecode. reflexivity.
    - injection Hpayload as ->. rewrite Hb64, Hdecode. reflexivity. }
  unfold detect_faces, detect_faces_base64, try_except.
  rewrite Hbody, Hbody64. repeat split; reflexivity.
Qed.

End FaceProperties.

(** ** The speech server *)

Section WhisperProperties.
Import WhisperServer.
Context {W : Type} `{Runtime} `{SpeechModel W}.

(** The [finally] block leaves no file under the temporary name. *)
Lemma cleanup_removes upload (s : state W) :
  fst (cleanup upload s) = Ret tt /\
  files (snd (cleanup upload s)) !! temp_filename upload = None.
Proof.
  unfold cleanup, os_path_exists, os_remove, bind, get_files, put_files, ret.
  cbn. destruct (files s !! temp_filename upload) as [data|] eqn:Hfile.
  - rewrite bool_decide_eq_true_2 by eauto.
    cbn. rewrite Hfile. cbn. split; [reflexivity | apply lookup_delete_eq].
  - rewrite bool_decide_eq_false_2 by (intros [? ?]; discriminate).
    cbn. auto.
Qed.

(** C8.  However [transcribe_audio] ends, with a result or with an
    exception (a failed write, a failed upload, a failed transcription),
    no file is left under the temporary name when it is done. *)
Theorem temp_file_removed upload (s : state W) :
  files (snd (transcribe_audio upload s)) !! temp_filename upload = None.
Proof.
  unfold transcribe_audio, try_finally.
  destruct (try_except _ _ s) as [r s1].
  pose proof (cleanup_removes upload s1) as [Hret Hgone].
  destruct (cleanup upload s1) as [[u|e] s2]; simpl in *; [exact Hgone | discriminate].
Qed.

(** The handler ends in one of two ways: the body's result, or a 500. *)
Lemma transcribe_audio_outcome upload (s : state W) :
  (exists body, fst (transcribe_audio upload s) = Ret body) \/
  (exists detail, fst (transcribe_audio upload s) = Raise (HTTPException 500 detail)).
Proof.
  unfold transcribe_audio, try_finally, try_except.
  destruct (transcribe_audio_body upload s) as [[body|e] s1].
  - pose proof (cleanup_removes upload s1) as [Hret _].
    destruct (cleanup upload s1) as [[u|e] s2]; simpl in *; [eauto | discriminate].
  - unfold raise.
    pose proof (cleanup_removes upload s1) as [Hret _].
    destruct (cleanup upload s1) as [[u|e'] s2]; simpl in *; [eauto | discriminate].
Qed.

End WhisperProperties.

(** ** Strings: [in], [split] and [strip] around a fence *)

Module StrFacts.
Import Str.

Lemma append_nil t : "" +:+ t = t.
Proof. reflexivity. Qed.

Lemma append_cons c s t : String c s +:+ t = String c (s +:+ t).
Proof. reflexivity. Qed.

Lemma append_assoc s t u : (s +:+ t) +:+ u = s +:+ t +:+ u.
Proof. induction s as [|c s IH]; [reflexivity|]. rewrite !append_cons, IH. reflexivity. Qed.

Lemma append_empty s : s +:+ "" = s.
Proof. induction s as [|c s IH]; [reflexivity|]. rewrite append_cons, IH. reflexivity. Qed.

Lemma startswith_app_l p q s : startswith (p +:+ q) s = true -> startswith p s = true.
Proof.
  revert s. induction p as [|a p IH]; intros s; [reflexivity|].
  destruct s as [|b s]; simpl; [discriminate|].
  intros [-> Hs]%andb_true_iff. simpl. eauto.
Qed.

Lemma no_match_weaken p q a r : no_match p a r = true -> no_match (p +:+ q) a r = true.
Proof.
  induction a as [|c a IH]; [reflexivity|].
  cbn [no_match]. intros [Hc Ha]%andb_true_iff.
  apply andb_true_iff. split; [|auto].
  apply negb_true_iff. apply negb_true_iff in Hc.
  destruct (startswith (p +:+ q) _) eqn:E; [|reflexivity].
  apply startswith_app_l in E. congruence.
Qed.

Lemma contains_app sep a r : no_match sep a r = true -> contains sep (a +:+ r) = contains sep r.
Proof.
  induction a as [|c a IH]; [reflexivity|].
  cbn [no_match]. intros [Hc Ha]%andb_true_iff. apply negb_true_iff in Hc.
  change (String c a +:+ r) with (String c (a +:+ r)) in *.
  cbn [contains]. rewrite Hc. simpl. auto.
Qed.

Lemma split_no_sep sep s : contains sep s = false -> split sep s = [s].
Proof.
  unfold split. induction s as [|c s IH]; [reflexivity|].
  cbn [contains]. intros [Hc Hs]%orb_false_iff.
  cbn [split_from]. rewrite Hc, (IH Hs). reflexivity.
Qed.

Lemma split_app sep a r piece pieces :
  no_match sep a r = true ->
  split sep r = piece :: pieces ->
  split sep (a +:+ r) = (a +:+ piece) :: pieces.
Proof.
  unfold split. intros Ha Hr. induction a as [|c a IH]; [exact Hr|].
  cbn [no_match] in Ha. apply andb_true_iff in Ha as [Hc Ha].
  apply negb_true_iff in Hc.
  change (String c a +:+ r) with (String c (a +:+ r)) in *.
  cbn [split_from]. rewrite Hc, (IH Ha). reflexivity.
Qed.

(** *** The fences *)

Lemma startswith_cons a p c s :
  startswith (String a p) (String c s) = Ascii.eqb a c && startswith p s.
Proof. reflexivity. Qed.

Lemma space_not_backtick c : is_space c = true -> Ascii.eqb backtick c = false.
Proof.
  intros Hc. destruct (Ascii.eqb_spec backtick c) as [<-|Hne]; [|reflexivity].
  vm_compute in Hc. discriminate.
Qed.

Lemma space_not_j c : is_space c = true -> Ascii.eqb "j" c = false.
Proof.
  intros Hc. destruct (Ascii.eqb_spec "j" c) as [<-|Hne]; [|reflexivity].
  vm_compute in Hc. discriminate.
Qed.

Lemma blank_cons p : blank p = true -> p <> "" ->
  exists c p', p = String c p' /\ is_space c = true /\ blank p' = true.
Proof.
  destruct p as [|c p']; [congruence|].
  cbn [blank]. intros [Hc Hp]%andb_true_iff _. eauto.
Qed.

Lemma startswith_fence_space c r : is_space c = true -> startswith fence (String c r) = false.
Proof.
  intros Hc. unfold fence. rewrite startswith_cons, (space_not_backtick c Hc). reflexivity.
Qed.

(** A fence that starts in [x] does not reach over white space. *)
Lemma startswith_fence_before_space x c r :
  is_space c = true ->
  startswith fence (x +:+ String c r) = true -> startswith fence x = true.
Proof.
  intros Hc. pose proof (space_not_backtick c Hc) as Hb. unfold fence in *.
  destruct x as [|c1 [|c2 [|c3 x]]];
    rewrite ?append_cons, ?append_nil, ?startswith_cons, ?Hb;
    repeat match goal with
           | |- context [Ascii.eqb backtick ?b] => destruct (Ascii.eqb backtick b)
           end; cbn -[String.append]; congruence.
Qed.

Lemma no_match_blank p r : blank p = true -> no_match fence p r = true.
Proof.
  induction p as [|c p IH]; [reflexivity|].
  cbn [blank no_match]. intros [Hc Hp]%andb_true_iff.
  rewrite append_cons, (startswith_fence_space c _ Hc). exact (IH Hp).
Qed.

Lemma no_match_app sep a b r :
  no_match sep a (b +:+ r) = true -> no_match sep b r = true ->
  no_match sep (a +:+ b) r = true.
Proof.
  intros Ha Hb. induction a as [|c a IH]; [exact Hb|].
  cbn [no_match] in Ha. apply andb_true_iff in Ha as [Hc Ha].
  rewrite append_cons. cbn [no_match]. rewrite (IH Ha), andb_true_r.
  rewrite <- append_cons, append_assoc. exact Hc.
Qed.

Lemma no_match_text s c after r :
  contains fence s = false -> is_space c = true ->
  no_match fence s (String c after +:+ r) = true.
Proof.
  intros Hs Hc. induction s as [|a s IH]; [reflexivity|].
  cbn [contains] in Hs. apply orb_false_iff in Hs as [Ha Hs].
  cbn [no_match]. rewrite (IH Hs), andb_true_r.
  apply negb_true_iff, not_true_is_false. intros E.
  rewrite append_cons in E.
  apply (startswith_fence_before_space (String a s) c (after +:+ r) Hc) in E.
  congruence.
Qed.

(** No fence starts in a text with none that stands between two runs of
    white space, whatever follows. *)
Lemma no_match_padded before s after r :
  contains fence s = false ->
  blank before = true -> blank after = true -> after <> "" ->
  no_match fence (before +:+ s +:+ after) r = true.
Proof.
  intros Hs Hbefore Hafter Hne.
  apply no_match_app; [apply no_match_blank, Hbefore|].
  apply no_match_app; [|apply no_match_blank, Hafter].
  destruct (blank_cons after Hafter Hne) as (c & after' & -> & Hc & _).
  apply no_match_text; assumption.
Qed.

Lemma contains_fence_json s : contains fence s = false -> contains fence_json s = false.
Proof.
  induction s as [|c s IH]; [reflexivity|].
  cbn [contains]. intros [Hc Hs]%orb_false_iff. rewrite (IH Hs), orb_false_r.
  apply not_true_is_false. intros E.
  apply (startswith_app_l fence "json") in E. congruence.
Qed.

(** [strip] and white space at both ends *)

Lemma rstrip_blank p : blank p = true -> rstrip p = "".
Proof.
  induction p as [|c p IH]; [reflexivity|].
  cbn [blank rstrip]. intros [Hc Hp]%andb_true_iff. rewrite (IH Hp), Hc. reflexivity.
Qed.

Lemma rstrip_app_blank s p : blank p = true -> rstrip (s +:+ p) = rstrip s.
Proof.
  intros Hp. induction s as [|c s IH]; [exact (rstrip_blank p Hp)|].
  rewrite append_cons. cbn [rstrip]. rewrite IH. reflexivity.
Qed.

Lemma lstrip_blank_app p t : blank p = true -> lstrip (p +:+ t) = lstrip t.
Proof.
  induction p as [|c p IH]; [reflexivity|].
  cbn [blank]. intros [Hc Hp]%andb_true_iff.
  rewrite append_cons. cbn [lstrip]. rewrite Hc. exact (IH Hp).
Qed.

Lemma rstrip_blank_app p t :
  blank p = true ->
  rstrip (p +:+ t) = match rstrip t with
                     | EmptyString => EmptyString
                     | String _ _ => p +:+ rstrip t
                     end.
Proof.
  induction p as [|c p IH].
  - intros _. rewrite append_nil. destruct (rstrip t); reflexivity.
  - cbn [blank]. intros [Hc Hp]%andb_true_iff.
    rewrite append_cons. cbn [rstrip]. rewrite (IH Hp).
    destruct (rstrip t) as [|x r].
    + rewrite Hc. reflexivity.
    + rewrite append_cons. destruct p; reflexivity.
Qed.

Lemma strip_padded before s after :
  blank before = true -> blank after = true ->
  strip (before +:+ s +:+ after) = strip s.
Proof.
  intros Hbefore Hafter. unfold strip.
  rewrite (rstrip_blank_app before _ Hbefore), (rstrip_app_blank s after Hafter).
  destruct (rstrip s) as [|x r] eqn:E; [reflexivity|].
  apply lstrip_blank_app, Hbefore.
Qed.

(** [split] at a fence *)

Lemma startswith_self p t : startswith p (p +:+ t) = true.
Proof.
  induction p as [|c p IH]; [reflexivity|].
  rewrite append_cons. cbn [startswith]. rewrite Ascii.eqb_refl. exact IH.
Qed.

Lemma contains_self p t : contains p (p +:+ t) = true.
Proof.
  destruct (p +:+ t) eqn:E; cbn [contains]; rewrite <- E, startswith_self; reflexivity.
Qed.

Lemma split_from_skip sep a t :
  split_from sep (String.length a) (a +:+ t) = split_from sep 0 t.
Proof.
  induction a as [|c a IH]; [reflexivity|].
  rewrite append_cons. exact IH.
Qed.

Lemma split_self c sep t :
  split (String c sep) (String c sep +:+ t) = "" :: split (String c sep) t.
Proof.
  unfold split. rewrite append_cons. cbn [split_from].
  rewrite <- append_cons, startswith_self.
  cbn [String.length]. rewrite Nat.sub_1_r. cbn [Nat.pred].
  rewrite split_from_skip. reflexivity.
Qed.

Lemma split_fence_self t : split fence (fence +:+ t) = "" :: split fence t.
Proof. exact (split_self backtick (String backtick (String backtick "")) t). Qed.

Lemma split_fence_json_self t :
  split fence_json (fence_json +:+ t) = "" :: split fence_json t.
Proof. exact (split_self backtick (String backtick (String backtick "json")) t). Qed.

Lemma padded_assoc before s after r :
  (before +:+ s +:+ after) +:+ r = before +:+ s +:+ after +:+ r.
Proof. rewrite !append_assoc. reflexivity. Qed.

(** What [split] finds in a padded text with no fence, in front of the
    closing fence. *)
Lemma split_fence_padded before s after :
  contains fence s = false ->
  blank before = true -> blank after = true -> after <> "" ->
  split fence (before +:+ s +:+ after +:+ fence) = [before +:+ s +:+ after; ""].
Proof.
  intros Hs Hbefore Hafter Hne. rewrite <- padded_assoc.
  rewrite (split_app fence _ fence "" [""]).
  - rewrite append_empty. reflexivity.
  - apply no_match_padded; assumption.
  - reflexivity.
Qed.

Lemma contains_fence_padded before s after :
  contains fence s = false ->
  blank before = true -> blank after = true -> after <> "" ->
  contains fence (before +:+ s +:+ after) = false.
Proof.
  intros Hs Hbefore Hafter Hne. rewrite <- (append_empty (before +:+ s +:+ after)).
  rewrite contains_app; [reflexivity|].
  apply no_match_padded; assumption.
Qed.

Lemma contains_fence_json_padded before s after :
  contains fence s = false ->
  blank before = true -> blank after = true -> after <> "" ->
  contains fence_json (before +:+ s +:+ after +:+ fence) = false.
Proof.
  intros Hs Hbefore Hafter Hne. rewrite <- padded_assoc.
  rewrite contains_app; [reflexivity|].
  apply (no_match_weaken fence "json"), no_match_padded; assumption.
Qed.

(** An opening fence followed by white space is not the [json] fence. *)
Lemma contains_fence_json_opening c t :
  is_space c = true ->
  contains fence_json (fence +:+ String c t) = contains fence_json (String c t).
Proof.
  intros Hc. apply contains_app.
  pose proof (space_not_backtick c Hc) as Hb. pose proof (space_not_j c Hc) as Hj.
  unfold fence_json. unfold fence, backtick in *.
  cbn [no_match]. rewrite !append_cons, !append_nil, !startswith_cons.
  rewrite Hb, Hj, !Ascii.eqb_refl. reflexivity.
Qed.

End StrFacts.

Section ForensicProperties.
Import Str StrFacts GroqCloud.

Lemma clean_markdown_plain s :
  contains fence s = false -> clean_markdown s = Ret s.
Proof.
  intros Hs. unfold clean_markdown.
  rewrite (contains_fence_json s Hs), Hs. reflexivity.
Qed.

Lemma clean_markdown_wrapped_json before s after :
  contains fence s = false ->
  blank before = true -> blank after = true -> after <> "" ->
  clean_markdown (wrap fence_json before s after) = Ret (before +:+ s +:+ after).
Proof.
  intros Hs Hbefore Hafter Hne. unfold clean_markdown, wrap.
  rewrite contains_self, split_fence_json_self.
  rewrite split_no_sep by (apply contains_fence_json_padded; assumption).
  cbn [PyOps.index nth_error].
  rewrite split_fence_padded by assumption. reflexivity.
Qed.

Lemma clean_markdown_wrapped before s after :
  contains fence s = false ->
  blank before = true -> before <> "" ->
  blank after = true -> after <> "" ->
  clean_markdown (wrap fence before s after) = Ret (before +:+ s +:+ after).
Proof.
  intros Hs Hbefore Hne Hafter Hne'. unfold clean_markdown, wrap.
  assert (Hj : contains fence_json (fence +:+ before +:+ s +:+ after +:+ fence) = false).
  { destruct (blank_cons before Hbefore Hne) as (c & before' & E & Hc & _).
    pose proof (contains_fence_json_padded before s after Hs Hbefore Hafter Hne') as Hp.
    rewrite E in *. rewrite append_cons in *.
    rewrite contains_fence_json_opening by exact Hc. exact Hp. }
  rewrite Hj, contains_self, split_fence_self.
  rewrite split_fence_padded by assumption.
  cbn [PyOps.index nth_error].
  rewrite split_no_sep by (apply contains_fence_padded; assumption). reflexivity.
Qed.

(** C7, as amended.  For a text with no run of three backticks in it,
    the model output made of the text between Markdown code fences, with
    or without the [json] tag, and with white space (a line break,
    spaces) between each fence and the text, is decoded exactly as the
    text alone: the same forensic log, or the same failure. *)
Theorem fenced_log_roundtrip `{Json} (s before after media_id user_id : string) :
  contains fence s = false ->
  blank before = true -> before <> "" ->
  blank after = true -> after <> "" ->
  decode_forensic_log (completion_of (wrap fence_json before s after)) media_id user_id
    = decode_forensic_log (completion_of s) media_id user_id /\
  decode_forensic_log (completion_of (wrap fence before s after)) media_id user_id
    = decode_forensic_log (completion_of s) media_id user_id.
Proof.
  intros Hs Hbefore Hne Hafter Hne'. unfold decode_forensic_log, completion_of.
  cbn [Py.get Py.lookup String.eqb Ascii.eqb Bool.eqb].
  rewrite (clean_markdown_plain s Hs),
    (clean_markdown_wrapped_json before s after Hs Hbefore Hafter Hne'),
    (clean_markdown_wrapped before s after Hs Hbefore Hne Hafter Hne'),
    (strip_padded before s after Hbefore Hafter).
  split; reflexivity.
Qed.

End ForensicProperties.

(** * Closed examples *)

Section Examples.
Import Script.
#[local] Existing Instances runtime json groq http vision memory system opencv speech.

(** ** A run over the three scripted records *)

Example sync_three_records :
  fst (SupabaseSync.sync_user_media configured "user-1" start)
    = Ret (completed_summary 1 3 1) /\
  trace (snd (SupabaseSync.sync_user_media configured "user-1" start))
    = [EvHttpGet (VStr "https://db.example/rest/v1/media");
       EvHttpGet (VStr "https://cdn.example/a.png");
       EvGroqClient; EvClock; EvTempFile ".png";
       EvVisionService; EvVisionAnalyze "/tmp/tmp0.png"; EvVisionTags;
       EvMemoryService; EvAddMemory (VStr "m1") "user-1";
       EvHttpGet (VStr "https://cdn.example/c.mp3")] /\
  files (snd (SupabaseSync.sync_user_media configured "user-1" start)) = ∅.
Proof. vm_compute. repeat split; reflexivity. Qed.

(** C3: the record with no [file_url] among the three. *)
Lemma missing_url_counts_nowhere_witness :
  (forall counters s0,
     SupabaseSync.sync_record configured "user-1" record_no_url counters s0
       = (Ret counters, s0)) /\
  exists summary s',
    SupabaseSync.sync_user_media configured "user-1" start = (Ret summary, s') /\
    summary_count summary "total" = Z.of_nat (length records) /\
    summary_count summary "processed" + summary_count summary "errors"
      < summary_count summary "total".
Proof.
  apply (missing_url_counts_nowhere configured "user-1" start
           (snd (SupabaseSync.get_user_media configured "user-1" start))
           records record_no_url).
  - vm_compute. reflexivity.
  - simpl. auto.
  - reflexivity.
Defined.

(** C4: a service with no store URL lists nothing. *)
Lemma no_media_short_circuit_witness :
  SupabaseSync.sync_user_media unconfigured "user-1" start
    = (Ret [("status", VStr "no_media"); ("processed", VInt 0); ("total", VInt 0)], start) /\
  files start = files start /\
  (trace start = trace start \/
   trace start = trace start ++ [EvHttpGet (VStr (SupabaseSync.media_url unconfigured))]).
Proof.
  apply (no_media_short_circuit unconfigured "user-1" start start).
  reflexivity.
Defined.



(** C10: the image record, which has no [type] field; its file is served,
    the Groq service is built on the way, and the vision service is what
    the analysis goes to. *)
Lemma typeless_record_runs_vision_only_witness :
  Py.get record_image "type" (VStr "image") = VStr "image" /\
  (forall counters (s : state unit),
     exists evs,
       trace (snd (SupabaseSync.sync_record configured "user-1" record_image counters s))
         = trace s ++ evs /\
       Forall (fun ev => is_transcription ev = false) evs) /\
  exists suffix evs,
    trace (snd (SupabaseSync.sync_record configured "user-1" record_image (0, 0) start))
      = [EvHttpGet (VStr "https://cdn.example/a.png"); EvGroqClient]
        ++ EvClock :: EvTempFile suffix :: EvVisionService :: evs /\
    Forall (fun ev => is_transcription ev = false) evs.
Proof.
  destruct (typeless_record_runs_vision_only configured "user-1" record_image
              eq_refl eq_refl) as (Hdefault & _ & Hquiet & Hvision).
  split; [exact Hdefault|]. split; [exact Hquiet|].
  pose (s1 := snd (SupabaseSync.download_media configured
                     (Py.get record_image "file_url" (VStr "")) start)).
  pose (s2 := snd (GroqCloud.get_groq_cloud_service s1)).
  assert (Htrace : trace s2 = [EvHttpGet (VStr "https://cdn.example/a.png"); EvGroqClient])
    by (vm_compute; reflexivity).
  rewrite <- Htrace.
  apply (Hvision (0, 0) [Byte.x89; Byte.x50; Byte.x4e; Byte.x47] "a.png"
           {| api_key := "gsk_example"; client := true; available := true |}
           start s1 s2).
  - vm_compute. reflexivity.
  - discriminate.
  - vm_compute. reflexivity.
  - reflexivity.
  - reflexivity.
  - intros suffix w. eexists _, _. reflexivity.
  - intros temp_path data w. eexists. reflexivity.
Defined.

Example typeless_record_trace :
  SupabaseSync.sync_record configured "user-1" record_image (0, 0) start
    = (Ret (1, 0),
       {| world := tt;
          trace := [EvHttpGet (VStr "https://cdn.example/a.png");
                    EvGroqClient; EvClock; EvTempFile ".png";
                    EvVisionService; EvVisionAnalyze "/tmp/tmp0.png"; EvVisionTags;
                    EvMemoryService; EvAddMemory (VStr "m1") "user-1"];
          files := ∅;
          _service_instance :=
            Some {| api_key := "gsk_example"; client := true; available := true |} |}).
Proof. vm_compute. reflexivity. Qed.

(** ** The face-detection server *)

(** C2: the text [not an image], uploaded and as a data URL. *)
Lemma undecodable_image_answers_500_witness :
  FaceDetection.detect_faces_body text_upload start
    = (Raise (HTTPException 400 "Could not decode image"), start) /\
  FaceDetection.detect_faces text_upload start
    = (Raise (HTTPException 500 "400: Could not decode image"), start) /\
  http_status (fst (FaceDetection.detect_faces text_upload start)) = 500 /\
  FaceDetection.detect_faces_base64_body text_data_url start
    = (Raise (HTTPException 400 "Could not decode image"), start) /\
  FaceDetection.detect_faces_base64 text_data_url start
    = (Raise (HTTPException 500 "400: Could not decode image"), start) /\
  http_status (fst (FaceDetection.detect_faces_base64 text_data_url start)) = 500.
Proof.
  assert (Htext : str_exn (HTTPException 400 "Could not decode image")
                  = "400: Could not decode image") by (vm_compute; reflexivity).
  rewrite <- Htext.
  apply (undecodable_image_answers_500 text_upload text_data_url
           "data:text/plain;base64,bm90IGFuIGltYWdl" "bm90IGFuIGltYWdl"
           not_an_image start); reflexivity.
Defined.

Example png_upload_answers_200 :
  http_status
    (fst (FaceDetection.detect_faces
            {| filename := Some "a.png"; file := Ret [Byte.x89; Byte.x50] |} start))
    = 200.
Proof. reflexivity. Qed.

(** ** The forensic log *)

(** C7: a log whose note quotes a fenced block.  Alone, the text between
    its own two fences, [{}], is what gets decoded; between code fences
    the text is cut at its first fence and decoding fails. *)
Lemma fenced_log_decodes_differently :
  json_loads log_with_fence
    = Ret (VDict [("inference_notes", VStr (Str.fence +:+ "{}" +:+ Str.fence))]) /\
  GroqCloud.decode_forensic_log (completion_of log_with_fence) "m1" "user-1"
    = Ret (VDict [("media_id", VStr "m1"); ("user_id", VStr "user-1")]) /\
  GroqCloud.decode_forensic_log (completion_of (fenced_json log_with_fence)) "m1" "user-1"
    = Raise (PyError "JSONDecodeError" "Expecting value") /\
  GroqCloud.decode_forensic_log (completion_of (fenced log_with_fence)) "m1" "user-1"
    = Raise (PyError "JSONDecodeError" "Expecting value").
Proof. vm_compute. repeat split; reflexivity. Qed.

(** C7: a log with no backtick in it, each fence on a line of its own. *)
Lemma fenced_log_roundtrip_witness :
  GroqCloud.decode_forensic_log (completion_of (fenced_json plain_log)) "m1" "user-1"
    = GroqCloud.decode_forensic_log (completion_of plain_log) "m1" "user-1" /\
  GroqCloud.decode_forensic_log (completion_of (fenced plain_log)) "m1" "user-1"
    = GroqCloud.decode_forensic_log (completion_of plain_log) "m1" "user-1".
Proof.
  apply (fenced_log_roundtrip plain_log Str.nl Str.nl "m1" "user-1");
    solve [reflexivity | discriminate].
Defined.

(** The same log on one line, a space after the opening fence and two
    before the closing one. *)
Example fenced_log_on_one_line :
  GroqCloud.decode_forensic_log
    (completion_of (wrap Str.fence_json " " plain_log "  ")) "m1" "user-1"
    = GroqCloud.decode_forensic_log (completion_of plain_log) "m1" "user-1".
Proof. vm_compute. reflexivity. Qed.

Example plain_log_decoded :
  GroqCloud.decode_forensic_log (completion_of (fenced_json plain_log)) "m1" "user-1"
    = Ret (VDict [("room", VStr "office"); ("media_id", VStr "m1");
                  ("user_id", VStr "user-1")]).
Proof. vm_compute. reflexivity. Qed.

(** ** The gateways on a broken line *)

Example transcription_offline :
  fst (@GroqCloud.transcribe_audio unit runtime groq_offline
         {| api_key := "gsk_example"; client := true; available := true |}
         "/tmp/a.wav"
         {| world := tt; trace := [];
            files := {[ "/tmp/a.wav" := [Byte.x52; Byte.x49] ]};
            _service_instance := None |})
    = Ret [("error", VStr "Connection error."); ("text", VStr ""); ("segments", VList [])].
Proof. vm_compute. reflexivity. Qed.

Example chat_stream_cut :
  fst (@GroqCloud.chat_completion unit runtime groq_offline
         {| api_key := "gsk_example"; client := true; available := true |}
         [] 0.7%float 2048 true start)
    = Ret [("error", VStr "Connection error."); ("content", VStr "")].
Proof. vm_compute. reflexivity. Qed.

(** ** The speech server *)

Example transcribe_upload :
  WhisperServer.transcribe_audio audio_upload start
    = (Ret (VDict [("text", VStr "hello  world"); ("language", VStr "en");
                   ("probability", VFloat 0.98%float)]),
       {| world := tt;
          trace := [EvOpenWrite "temp_a.wav"; EvSpeechModel "temp_a.wav"];
          files := ∅; _service_instance := None |}).
Proof. vm_compute. reflexivity. Qed.

Example transcribe_upload_fails :
  @WhisperServer.transcribe_audio unit runtime speech_broken audio_upload start
    = (Raise (HTTPException 500 "invalid data"),
       {| world := tt;
          trace := [EvOpenWrite "temp_a.wav"; EvSpeechModel "temp_a.wav"];
          files := ∅; _service_instance := None |}).
Proof. vm_compute. reflexivity. Qed.

End Examples.

(** * Further properties *)

(** ** The sync orchestrator, record by record *)

Section SyncAccounting.
Import SupabaseSync.
Context {W : Type} `{Runtime} `{Json} `{GroqCloud.GroqAPI W}
        `{HttpClient W} `{VisionService W} `{MemoryService W} `{System W}.

(** X1.  In a run over a list that is not empty every record with a
    source URL is counted exactly once, as processed or as an error: the
    two counters add up to the number of such records, and to the total
    when no record lacks its URL. *)
Theorem sync_counts_each_record_once self user_id (s s1 : state W) media_list :
  get_user_media self user_id s = (Ret media_list, s1) ->
  media_list <> [] ->
  exists processed errors s',
    sync_user_media self user_id s
      = (Ret (completed_summary processed (Z.of_nat (length media_list)) errors), s') /\
    0 <= processed /\ 0 <= errors /\
    processed + errors = Z.of_nat (length (List.filter has_source_url media_list)) /\
    (forallb has_source_url media_list = true ->
     processed + errors = Z.of_nat (length media_list)).
Proof.
  intros Hlist Hne.
  destruct (sync_user_media_cases self user_id s) as (l & s1' & Hlist' & Hrun).
  rewrite Hlist in Hlist'. injection Hlist' as <- <-.
  destruct media_list as [|media rest]; [congruence|].
  destruct Hrun as (p & e & s2 & Hrun & Hp & He & Hsum).
  exists p, e, s2. repeat split; try assumption.
  intros Hall. rewrite Hsum. f_equal. f_equal.
  clear -Hall. induction (media :: rest) as [|m l IH]; [reflexivity|].
  cbn [forallb] in Hall. apply andb_true_iff in Hall as [Hm Hl].
  cbn [List.filter]. rewrite Hm. cbn [length]. f_equal. exact (IH Hl).
Qed.

(** X2.  A file that downloads with status 200 and no byte in it counts
    as an error: the record is neither analysed nor stored, and the
    request of the file is the only call made for it. *)
Theorem empty_download_is_an_error self user_id media processed errors
    (s : state W) response w' :
  has_source_url media = true ->
  client_get (Py.get media "file_url" (VStr "")) [] [] (world s) = (Ret response, w') ->
  status_code response = 200 ->
  content response = [] ->
  exists s',
    sync_record self user_id media (processed, errors) s
      = (Ret (processed, errors + 1), s') /\
    trace s' = trace s ++ [EvHttpGet (Py.get media "file_url" (VStr ""))] /\
    files s' = files s.
Proof.
  intros Hurl Hget Hstatus Hcontent. unfold has_source_url in Hurl.
  unfold sync_record, download_media. rewrite Hurl. cbn [negb].
  unfold try_except, bind, call. rewrite Hget, Hstatus. cbn. rewrite Hcontent. cbn.
  eexists. split; [reflexivity|]. split; reflexivity.
Qed.

(** When no file can be had, a pass of the loop is one request and one
    more error. *)
Lemma sync_record_without_file self user_id media processed errors (s : state W) :
  (forall url w,
     match fst (client_get url [] [] w) with
     | Ret response => status_code response <> 200
     | Raise _ => True
     end) ->
  exists s' evs,
    sync_record self user_id media (processed, errors) s
      = (Ret (processed, errors + (if has_source_url media then 1 else 0)), s') /\
    trace s' = trace s ++ evs /\
    Forall (fun ev => is_http_get ev = true) evs /\
    files s' = files s.
Proof.
  intros Hnone. unfold sync_record, has_source_url.
  destruct (Py.truthy (Py.get media "file_url" (VStr ""))) eqn:Hurl; cbn [negb].
  - unfold download_media. rewrite Hurl. cbn [negb].
    unfold try_except, bind, call.
    specialize (Hnone (Py.get media "file_url" (VStr "")) (world s)).
    destruct (client_get _ _ _ (world s)) as [[response|e] w1]; cbn in Hnone.
    + apply Z.eqb_neq in Hnone. rewrite Hnone. cbn.
      eexists _, [_]. repeat split; try reflexivity. repeat constructor.
    + cbn. eexists _, [_]. repeat split; try reflexivity. repeat constructor.
  - exists s, []. rewrite Z.add_0_r, app_nil_r. repeat split; constructor.
Qed.

(** X3.  When the store serves no file (every download is answered with
    a status other than 200, or fails), a run over a list that is not
    empty processes nothing, counts every record with a URL as an error,
    makes no call but requests to the store, and leaves the disk as it
    was: one failed record never stops the loop. *)
Theorem sync_without_files self user_id (s s1 : state W) media_list :
  (forall url w,
     match fst (client_get url [] [] w) with
     | Ret response => status_code response <> 200
     | Raise _ => True
     end) ->
  get_user_media self user_id s = (Ret media_list, s1) ->
  media_list <> [] ->
  exists s' evs,
    sync_user_media self user_id s
      = (Ret (completed_summary 0 (Z.of_nat (length media_list))
                (Z.of_nat (length (List.filter has_source_url media_list)))), s') /\
    trace s' = trace s ++ evs /\
    Forall (fun ev => is_http_get ev = true) evs /\
    files s' = files s.
Proof.
  intros Hnone Hlist Hne.
  assert (Hloop : forall l processed errors (s0 : state W),
            exists s' evs,
              sync_loop self user_id l (processed, errors) s0
                = (Ret (processed,
                        errors + Z.of_nat (length (List.filter has_source_url l))), s') /\
              trace s' = trace s0 ++ evs /\
              Forall (fun ev => is_http_get ev = true) evs /\
              files s' = files s0).
  { induction l as [|media rest IH]; intros processed errors s0.
    - exists s0, []. cbn. rewrite Z.add_0_r, app_nil_r. repeat split; constructor.
    - destruct (sync_record_without_file self user_id media processed errors s0 Hnone)
        as (s2 & evs1 & Hrec & Ht1 & Hf1 & Hd1).
      destruct (IH processed (errors + (if has_source_url media then 1 else 0)) s2)
        as (s3 & evs2 & Hrest & Ht2 & Hf2 & Hd2).
      exists s3, (evs1 ++ evs2). cbn [sync_loop]. unfold bind at 1.
      rewrite Hrec, Hrest. repeat split.
      + do 2 f_equal. f_equal. cbn [List.filter].
        destruct (has_source_url media); cbn [length]; lia.
      + rewrite Ht2, Ht1, app_assoc. reflexivity.
      + apply Forall_app; auto.
      + congruence. }
  pose proof (get_user_media_effects self user_id s _ _ Hlist) as [Hfiles Htrace].
  destruct (Hloop media_list 0 0 s1) as (s' & evs & Hrun & Ht & Hf & Hd).
  destruct media_list as [|media rest]; [congruence|].
  destruct Htrace as [Htrace|Htrace].
  - exists s', evs. unfold sync_user_media, bind. rewrite Hlist, Hrun.
    repeat split; [congruence | assumption | congruence].
  - exists s', (EvHttpGet (VStr (media_url self)) :: evs).
    unfold sync_user_media, bind. rewrite Hlist, Hrun.
    repeat split.
    + rewrite Ht, Htrace, <- app_assoc. reflexivity.
    + constructor; [reflexivity | assumption].
    + congruence.
Qed.

End SyncAccounting.

(** ** Which computations leave the disk alone *)

Section KeepsFiles.
Context {W : Type}.

Lemma keeps_files_ret {A} (a : A) : keeps_files (ret a : M W A).
Proof. intros s. reflexivity. Qed.

Lemma keeps_files_raise {A} e : keeps_files (raise e : M W A).
Proof. intros s. reflexivity. Qed.

Lemma keeps_files_lift {A} (r : outcome A) : keeps_files (lift r : M W A).
Proof. intros s. reflexivity. Qed.

Lemma keeps_files_call {A} ev (f : W -> outcome A * W) : keeps_files (call ev f).
Proof. intros s. unfold call. destruct (f (world s)). reflexivity. Qed.

Lemma keeps_files_get_files : keeps_files (get_files : M W _).
Proof. intros s. reflexivity. Qed.

Lemma keeps_files_get_instance : keeps_files (get_instance : M W _).
Proof. intros s. reflexivity. Qed.

Lemma keeps_files_put_instance i : keeps_files (put_instance i : M W _).
Proof. intros s. reflexivity. Qed.

Lemma keeps_files_bind {A B} (m : M W A) (k : A -> M W B) :
  keeps_files m -> (forall a, keeps_files (k a)) -> keeps_files (bind m k).
Proof.
  intros Hm Hk s. unfold bind. specialize (Hm s).
  destruct (m s) as [[a|e] s1]; cbn in *; [|exact Hm].
  rewrite (Hk a s1). exact Hm.
Qed.

Lemma keeps_files_try_except {A} (m : M W A) (h : exn -> M W A) :
  keeps_files m -> (forall e, keeps_files (h e)) -> keeps_files (try_except m h).
Proof.
  intros Hm Hh s. unfold try_except. specialize (Hm s).
  destruct (m s) as [[a|e] s1]; cbn in *; [exact Hm|].
  rewrite (Hh e s1). exact Hm.
Qed.

Lemma keeps_files_for_each {A B} (f : A -> M W B) (xs : list A) :
  (forall x, keeps_files (f x)) -> keeps_files (for_each f xs).
Proof.
  intros Hf. induction xs as [|x xs IH]; cbn [for_each].
  - apply keeps_files_ret.
  - apply keeps_files_bind; [apply Hf|]. intros y.
    apply keeps_files_bind; [apply IH|]. intros ys. apply keeps_files_ret.
Qed.

Lemma keeps_files_if {A} (b : bool) (m1 m2 : M W A) :
  keeps_files m1 -> keeps_files m2 -> keeps_files (if b then m1 else m2).
Proof. destruct b; auto. Qed.

Lemma keeps_files_read_file path : keeps_files (read_file path : M W _).
Proof.
  intros s. unfold read_file, bind, get_files, ret, raise.
  destruct (files s !! path); reflexivity.
Qed.

End KeepsFiles.

Ltac keeps_files_step :=
  first
    [ apply keeps_files_ret | apply keeps_files_raise | apply keeps_files_lift
    | apply keeps_files_call | apply keeps_files_read_file
    | apply keeps_files_get_files
    | apply keeps_files_get_instance | apply keeps_files_put_instance
    | apply keeps_files_bind; [|intros ?]
    | apply keeps_files_try_except; [|intros ?]
    | apply keeps_files_for_each; intros ?
    | apply keeps_files_if
    | match goal with
      | |- keeps_files (match ?x with _ => _ end) => destruct x
      end ].

(** ** Python dictionaries *)

Section Dictionaries.

Lemma lookup_set_eq k v (d : dict) : Py.lookup k (Py.set k v d) = Some v.
Proof.
  induction d as [|[k' v'] d IH]; cbn [Py.set Py.lookup].
  - rewrite String.eqb_refl. reflexivity.
  - destruct (String.eqb k k') eqn:E; cbn [Py.lookup]; rewrite ?String.eqb_refl, ?E; auto.
Qed.

Lemma lookup_set_ne k k' v (d : dict) :
  String.eqb k' k = false -> Py.lookup k' (Py.set k v d) = Py.lookup k' d.
Proof.
  intros Hne. induction d as [|[k0 v0] d IH]; cbn [Py.set Py.lookup].
  - rewrite Hne. reflexivity.
  - destruct (String.eqb k k0) eqn:E; cbn [Py.lookup].
    + apply String.eqb_eq in E. subst k0. rewrite Hne. reflexivity.
    + rewrite IH. reflexivity.
Qed.

End Dictionaries.

(** ** The analysis of one file *)

Section AnalysisProperties.
Import SupabaseSync.
Context {W : Type} `{Runtime} `{Json} `{GroqCloud.GroqAPI W}
        `{HttpClient W} `{VisionService W} `{MemoryService W} `{System W}.

(** Whatever [transcribe_audio] returns, its [text] has a length. *)
Lemma transcribe_audio_text_sized groq audio_path (s : state W) :
  exists result s',
    GroqCloud.transcribe_audio groq audio_path s = (Ret result, s') /\
    exists n, PyOps.len (Py.get result "text" (VStr "")) = Ret n.
Proof.
  unfold GroqCloud.transcribe_audio.
  destruct (negb (available groq)).
  { eexists _, _. split; [reflexivity|]. eexists. reflexivity. }
  unfold try_except.
  destruct (GroqCloud.transcribe_audio_body audio_path s) as [[result|e] s1] eqn:Hbody.
  2:{ eexists _, _. split; [reflexivity|]. eexists. reflexivity. }
  exists result, s1. split; [reflexivity|].
  unfold GroqCloud.transcribe_audio_body, bind in Hbody.
  destruct (read_file audio_path s) as [[data|e] s2]; [|discriminate].
  destruct (call _ _ s2) as [[t|e] s3]; [|discriminate].
  match type of Hbody with
  | match ?step s3 with _ => _ end = _ =>
      destruct (step s3) as [[r|e] s4] eqn:Hstep; [|discriminate]
  end.
  assert (Htext : Py.lookup "text" r = Some (GroqCloud.text t)).
  { destruct (GroqCloud.segments t) as [segs|].
    - destruct (Py.truthy segs).
      + unfold bind, ret in Hstep.
        destruct (lift _ s3) as [[items|e] s5]; [|discriminate].
        destruct (for_each _ items s5) as [[entries|e] s6]; [|discriminate].
        injection Hstep as <- <-. reflexivity.
      + injection Hstep as <- <-. reflexivity.
    - injection Hstep as <- <-. reflexivity. }
  unfold lift, ret in Hbody. unfold Py.get in *. rewrite Htext in *.
  destruct (PyOps.len (GroqCloud.text t)) as [n|e] eqn:Hlen; [|discriminate].
  injection Hbody as <- <-. rewrite Htext. eauto.
Qed.

Lemma transcribe_audio_keeps_files groq audio_path :
  keeps_files (W:=W) (GroqCloud.transcribe_audio groq audio_path).
Proof.
  unfold GroqCloud.transcribe_audio, GroqCloud.transcribe_audio_body.
  repeat keeps_files_step.
Qed.

(** The transcription branch never raises: the text it measures was
    measured by [transcribe_audio] before. *)
Lemma transcription_path_returns groq temp_path result (s : state W) :
  exists result' s', transcription_path groq temp_path result s = (Ret result', s').
Proof.
  unfold transcription_path, bind.
  destruct (transcribe_audio_text_sized groq temp_path s) as (d & s1 & -> & n & Hn).
  destruct (_ && _); [|unfold ret; eauto].
  unfold lift, ret.
  assert (Hlook : Py.get (Py.set "segments" (Py.get d "segments" (VList []))
                            (Py.set "transcript" (Py.get d "text" (VStr "")) result))
                         "transcript" VNone
                  = Py.get d "text" (VStr "")).
  { unfold Py.get at 1. rewrite lookup_set_ne by reflexivity.
    rewrite lookup_set_eq. reflexivity. }
  rewrite Hlook, Hn. eauto.
Qed.

Lemma vision_path_returns temp_path result (s : state W) :
  exists result' s', vision_path temp_path result s = (Ret result', s').
Proof.
  unfold vision_path, try_except at 1.
  match goal with |- context [match ?body s with _ => _ end] => destruct (body s) as [[r|e] s1] end;
    unfold ret; eauto.
Qed.

(** The two analysis branches swallow their failures: whatever the
    media type, whatever Groq and the vision service do, the dispatch of
    [analyze_media] returns a result and never raises, and it leaves the
    disk as it found it. *)
Lemma analysis_paths_returns groq media_type temp_path result (s : state W) :
  exists result' s',
    analysis_paths groq media_type temp_path result s = (Ret result', s') /\
    files s' = files s.
Proof.
  assert (Hkeep : keeps_files (W:=W) (analysis_paths groq media_type temp_path result)).
  { unfold analysis_paths, transcription_path, vision_path.
    repeat first [ apply transcribe_audio_keeps_files | keeps_files_step ]. }
  specialize (Hkeep s).
  unfold analysis_paths, bind in *.
  destruct (Py.in_strings media_type ["audio"; "video"]).
  - destruct (transcription_path_returns groq temp_path result s) as (r1 & s1 & E1).
    rewrite E1 in *.
    destruct (Py.in_strings media_type ["image"; "video"]).
    + destruct (vision_path_returns temp_path r1 s1) as (r2 & s2 & E2).
      rewrite E2 in *. eauto.
    + unfold ret in *. eauto.
  - unfold ret at 1 in Hkeep. unfold ret at 1.
    destruct (Py.in_strings media_type ["image"; "video"]).
    + destruct (vision_path_returns temp_path result s) as (r2 & s2 & E2).
      rewrite E2 in *. eauto.
    + unfold ret in *. eauto.
Qed.

Lemma get_groq_cloud_service_returns (s : state W) :
  exists groq s',
    GroqCloud.get_groq_cloud_service s = (Ret groq, s') /\
    files s' = files s /\
    _service_instance s' = Some groq.
Proof.
  unfold GroqCloud.get_groq_cloud_service, bind, get_instance.
  destruct (_service_instance s) as [groq|] eqn:Hinst.
  { exists groq, s. auto. }
  unfold GroqCloud.__init__.
  destruct (negb (String.eqb GroqCloud.GROQ_API_KEY "")).
  - unfold try_except, bind, call.
    destruct (GroqCloud.Groq _ (world s)) as [[[]|e] w1]; cbn; eauto.
  - cbn. eauto.
Qed.

(** The part of [analyze_media] that works on the temporary file once it
    is written: analyse, remove it. *)
Lemma analysis_on_temp_file groq media_type temp_path result (s : state W) :
  is_Some (files s !! temp_path) ->
  exists result' s',
    try_finally (analysis_paths groq media_type temp_path result)
                (try_except (os_remove temp_path) (fun e => ret tt)) s
      = (Ret result', s') /\
    files s' = delete temp_path (files s).
Proof.
  intros [data Hdata].
  destruct (analysis_paths_returns groq media_type temp_path result s)
    as (r & s2 & Hrun & Hfiles).
  unfold try_finally. rewrite Hrun.
  unfold try_except, os_remove, bind, get_files, put_files. cbn.
  rewrite Hfiles, Hdata. cbn.
  eexists _, _. split; [reflexivity|]. reflexivity.
Qed.

(** The [with] block, case by case: no file is made, or the file holds the
    bytes, or the write failed and the file holds what reached it. *)
Lemma save_temp_file_cases suffix file_bytes (s : state W) :
  (exists e s',
     save_temp_file suffix file_bytes s = (Raise e, s') /\ files s' = files s) \/
  (exists temp_path s',
     save_temp_file suffix file_bytes s = (Ret temp_path, s') /\
     files s' = <[temp_path := file_bytes]> (files s)) \/
  (exists e temp_path reached w w' s',
     f_write temp_path file_bytes w = (WriteFailed e reached, w') /\
     save_temp_file suffix file_bytes s = (Raise e, s') /\
     files s' = <[temp_path := take reached file_bytes]> (files s)).
Proof.
  unfold save_temp_file, bind, call, write_file, bind, get_files, put_files, ask_write,
    ret, raise.
  destruct (NamedTemporaryFile suffix (world s)) as [[temp_path|e] w1].
  2:{ left. eexists _, _. split; reflexivity. }
  cbn [world files trace _service_instance].
  destruct (f_write temp_path file_bytes w1) as [[|e reached] w2] eqn:Hwrite.
  - right. left. eexists _, _. split; [reflexivity|]. cbn. apply insert_insert_eq.
  - right. right. exists e, temp_path, reached, w1, w2. eexists.
    split; [exact Hwrite|]. split; [reflexivity|]. cbn. apply insert_insert_eq.
Qed.

(** [analyze_media], case by case: it returns with no file added, or it
    raises with the disk as it was, or the write into the temporary file
    failed and it raises with that file on the disk. *)
Lemma analyze_media_cases file_bytes media_type name (s : state W) :
  exists r s',
    analyze_media file_bytes media_type name s = (r, s') /\
    match r with
    | Ret _ =>
        files s' = files s \/ exists temp_path, files s' = delete temp_path (files s)
    | Raise e =>
        files s' = files s \/
        exists temp_path reached w w',
          f_write temp_path file_bytes w = (WriteFailed e reached, w') /\
          files s' = <[temp_path := take reached file_bytes]> (files s)
    end.
Proof.
  unfold analyze_media, bind at 1.
  destruct (get_groq_cloud_service_returns s) as (groq & s1 & -> & Hf1 & _).
  unfold bind at 1, call at 1.
  destruct (now_isoformat (world s1)) as [t w2].
  destruct (negb (available groq)).
  { eexists _, _. split; [reflexivity|]. left. exact Hf1. }
  unfold bind at 1.
  match goal with
  | |- context [match ?suffix ?s2 with _ => _ end] =>
      assert (Hs : snd (suffix s2) = s2) by (destruct name; reflexivity);
      destruct (suffix s2) as [[sfx|e] s3]
  end; cbn in Hs; subst s3.
  2:{ eexists _, _. split; [reflexivity|]. left. exact Hf1. }
  unfold bind at 1.
  match goal with
  | |- context [save_temp_file sfx file_bytes ?s2] =>
      destruct (save_temp_file_cases sfx file_bytes s2)
        as [(e & s3 & -> & Hf3) | [(temp_path & s3 & -> & Hf3)
                                  | (e & temp_path & reached & w & w' & s3 & Hw & -> & Hf3)]]
  end; cbn [files] in Hf3; rewrite Hf1 in Hf3.
  - eexists _, _. split; [reflexivity|]. left. exact Hf3.
  - match goal with
    | |- context [try_finally (analysis_paths groq media_type temp_path ?result) _ s3] =>
        destruct (analysis_on_temp_file groq media_type temp_path result s3)
          as (r & s4 & -> & Hf4)
    end.
    { rewrite Hf3, lookup_insert_eq. eauto. }
    eexists _, _. split; [reflexivity|]. right. exists temp_path.
    rewrite Hf4, Hf3. apply delete_insert_eq.
  - eexists _, _. split; [reflexivity|]. right. exists temp_path, reached, w, w'. auto.
Qed.

(** X4.  [analyze_media] leaves no temporary file behind when it
    returns: every file on the disk afterwards was there before, with the
    same content.  When it raises, the disk is as it was, or the write
    into the temporary file is what failed, and that file is left on the
    disk with the bytes that reached it: the [with] block that writes it
    stands before the [try/finally] that removes it. *)
Theorem analyze_media_leaves_no_file file_bytes media_type name (s : state W) :
  (forall result s',
     analyze_media file_bytes media_type name s = (Ret result, s') ->
     forall path data, files s' !! path = Some data -> files s !! path = Some data) /\
  (forall e s',
     analyze_media file_bytes media_type name s = (Raise e, s') ->
     files s' = files s \/
     exists temp_path reached w w',
       f_write temp_path file_bytes w = (WriteFailed e reached, w') /\
       files s' = <[temp_path := take reached file_bytes]> (files s) /\
       files s' !! temp_path = Some (take reached file_bytes)).
Proof.
  destruct (analyze_media_cases file_bytes media_type name s) as (r & s1 & -> & Hfiles).
  split.
  - intros result s' [= -> <-] path data.
    destruct Hfiles as [-> | (temp_path & ->)]; [auto|].
    intros [_ Hlook]%lookup_delete_Some. exact Hlook.
  - intros e s' [= -> <-].
    destruct Hfiles as [Hsame | (temp_path & reached & w & w' & Hw & Hfiles)];
      [left; exact Hsame|].
    right. exists temp_path, reached, w, w'.
    split; [exact Hw|]. split; [exact Hfiles|].
    rewrite Hfiles. apply lookup_insert_eq.
Qed.

(** X5.  [analyze_media] returns whenever the file name is a string and
    the temporary file can be created and written: nothing Groq or the
    vision service does makes it raise. *)
Theorem analyze_media_returns file_bytes media_type name (s : state W) :
  (forall suffix w, exists temp_path w', NamedTemporaryFile suffix w = (Ret temp_path, w')) ->
  (forall temp_path data w, exists w', f_write temp_path data w = (AllWritten, w')) ->
  exists result s', analyze_media file_bytes media_type (VStr name) s = (Ret result, s').
Proof.
  intros Htemp Hwrite. unfold analyze_media, bind at 1.
  destruct (get_groq_cloud_service_returns s) as (groq & s1 & -> & Hf1 & _).
  unfold bind at 1, call at 1.
  destruct (now_isoformat (world s1)) as [t w2].
  destruct (negb (available groq)); [unfold ret; eauto|].
  unfold bind at 1, ret at 1.
  unfold bind at 1, save_temp_file, bind at 1, call at 1. cbn [world].
  match goal with
  | |- context [NamedTemporaryFile ?sfx w2] =>
      destruct (Htemp sfx w2) as (temp_path & w3 & ->)
  end.
  unfold bind at 1, write_file at 1, bind at 1, get_files, put_files.
  unfold bind at 1, ask_write. cbn [world].
  destruct (Hwrite temp_path file_bytes w3) as (w4 & ->).
  unfold bind at 1, write_file, bind at 1, get_files, put_files, ret at 1.
  match goal with
  | |- context [try_finally (analysis_paths groq media_type temp_path ?result) _ ?s4] =>
      destruct (analysis_on_temp_file groq media_type temp_path result s4)
        as (r & s5 & -> & _)
  end.
  { cbn [files]. rewrite lookup_insert_eq. eauto. }
  eauto.
Qed.

(** What building the Groq service adds to the trace: nothing, or the one
    call of the constructor, and nothing when the service is built
    already or the key is not set. *)
Lemma get_groq_cloud_service_trace groq (s s1 : state W) :
  GroqCloud.get_groq_cloud_service s = (Ret groq, s1) ->
  (trace s1 = trace s \/ trace s1 = trace s ++ [EvGroqClient]) /\
  (is_Some (_service_instance s) \/ GroqCloud.GROQ_API_KEY = "" -> trace s1 = trace s).
Proof.
  unfold GroqCloud.get_groq_cloud_service, bind, get_instance.
  destruct (_service_instance s) as [service|] eqn:Hinst.
  { intros [= <- <-]. auto. }
  unfold GroqCloud.__init__.
  destruct (String.eqb GroqCloud.GROQ_API_KEY "") eqn:Hkey; cbn [negb].
  - cbn. intros [= <- <-]. cbn. auto.
  - apply String.eqb_neq in Hkey.
    unfold try_except, bind, call.
    destruct (GroqCloud.Groq _ (world s)) as [[[]|e] w1]; cbn;
      intros [= <- <-]; cbn; (split; [right; reflexivity|]);
      intros [[service Hsome] | Hempty]; congruence.
Qed.

(** X6.  When Groq is not available nothing is analysed, not even by the
    vision service: the result is the blank one, the disk is not touched
    (no temporary file is made), and the calls are the reading of the
    clock and, before it, the one try at the Groq constructor when this
    is the call that builds the service; with the service built already,
    or no key set, the clock is all that is asked. *)
Theorem analyze_media_without_groq file_bytes media_type name groq (s s1 : state W) :
  GroqCloud.get_groq_cloud_service s = (Ret groq, s1) ->
  available groq = false ->
  exists analyzed_at s',
    analyze_media file_bytes media_type name s = (Ret (blank_analysis analyzed_at), s') /\
    (trace s' = trace s ++ [EvClock] \/ trace s' = trace s ++ [EvGroqClient; EvClock]) /\
    (is_Some (_service_instance s) \/ GroqCloud.GROQ_API_KEY = "" ->
     trace s' = trace s ++ [EvClock]) /\
    files s' = files s.
Proof.
  intros Hgroq Hoff.
  destruct (get_groq_cloud_service_trace groq s s1 Hgroq) as [Htrace Hbuilt].
  unfold analyze_media, bind at 1. rewrite Hgroq.
  destruct (get_groq_cloud_service_returns s) as (groq' & s1' & E & Hf1 & _).
  rewrite Hgroq in E. injection E as <- <-.
  unfold bind, call. destruct (now_isoformat (world s1)) as [t w2].
  rewrite Hoff. cbn. eexists _, _. split; [reflexivity|]. cbn.
  split; [|split; [|exact Hf1]].
  - destruct Htrace as [-> | ->]; [left; reflexivity|].
    right. rewrite <- app_assoc. reflexivity.
  - intros Hcase. rewrite (Hbuilt Hcase). reflexivity.
Qed.

End AnalysisProperties.

(** ** The AI gateway, on success *)

Section GroqResults.
Import GroqCloud.
Context {W : Type} `{Runtime} `{Json} `{GroqAPI W}.

Lemma segment_entries items :
  forall entries (s s' : state W),
    for_each (fun seg => lift (segment_entry seg)) items s = (Ret entries, s') ->
    length entries = length items /\ Forall is_segment entries.
Proof.
  induction items as [|seg items IH]; intros entries s s'; cbn [for_each].
  - unfold ret. intros [= <- <-]. split; [reflexivity | constructor].
  - unfold bind, lift, ret.
    destruct (segment_entry seg) as [entry|e] eqn:Hentry; [|discriminate].
    destruct (for_each _ items s) as [[rest|e] s1] eqn:Hrest; [|discriminate].
    intros [= <- <-]. destruct (IH rest s s1 Hrest) as [Hlen Hall].
    split; [cbn; congruence|]. constructor; [|exact Hall].
    unfold segment_entry in Hentry.
    destruct (PyOps.get seg "text" _) as [t|]; [|discriminate].
    destruct (PyOps.get seg "start" _) as [st|]; [|discriminate].
    destruct (PyOps.get seg "end" _) as [en|]; [|discriminate].
    injection Hentry as <-. exists t, st, en. reflexivity.
Qed.

(** X7.  A result of [transcribe_audio] with no ["error"] key has exactly
    the keys [text], [language] and [segments]; its text has a length,
    and its segments are a list that is not empty, of dictionaries with
    [text], [start] and [end]: with no segments from the service there is
    the one segment that carries the whole text. *)
Theorem transcription_result_shape self audio_path (s s' : state W) result :
  transcribe_audio self audio_path s = (Ret result, s') ->
  Py.contains_key "error" result = false ->
  exists t lang entries,
    result = [("text", t); ("language", lang); ("segments", VList entries)] /\
    (exists n, PyOps.len t = Ret n) /\
    entries <> [] /\
    Forall is_segment entries.
Proof.
  unfold transcribe_audio.
  destruct (negb (available self)).
  { unfold ret. intros [= <- <-]. discriminate. }
  unfold try_except.
  destruct (transcribe_audio_body audio_path s) as [[r|e] s1] eqn:Hbody.
  2:{ unfold ret. intros [= <- <-]. discriminate. }
  intros [= -> ->] _.
  unfold transcribe_audio_body, bind in Hbody.
  destruct (read_file audio_path s) as [[data|e] s2]; [|discriminate].
  destruct (call _ _ s2) as [[tr|e] s3]; [|discriminate].
  match type of Hbody with
  | match ?step s3 with _ => _ end = _ =>
      destruct (step s3) as [[r|e] s4] eqn:Hstep; [|discriminate]
  end.
  assert (Hshape : exists entries,
             r = [("text", text tr);
                  ("language", default (VStr "unknown") (language tr));
                  ("segments", VList entries)] /\
             entries <> [] /\ Forall is_segment entries).
  { assert (Hfallback : forall s5 : state W,
              ret (Py.set "segments"
                     (VList [VDict [("text", text tr); ("start", VInt 0); ("end", VNone)]])
                     [("text", text tr);
                      ("language", default (VStr "unknown") (language tr));
                      ("segments", VList [])]) s3 = (Ret r, s5) ->
              exists entries,
                r = [("text", text tr);
                     ("language", default (VStr "unknown") (language tr));
                     ("segments", VList entries)] /\
                entries <> [] /\ Forall is_segment entries).
    { intros s5 [= <- _]. eexists. split; [reflexivity|]. split; [discriminate|].
      repeat constructor. eexists _, _, _. reflexivity. }
    destruct (segments tr) as [segs|]; [|eauto].
    destruct (Py.truthy segs) eqn:Htruthy; [|eauto].
    unfold bind, lift, ret in Hstep.
    destruct (PyOps.iter segs) as [items|e] eqn:Hiter; [|discriminate].
    destruct (for_each _ items s3) as [[entries|e] s6] eqn:Hentries; [|discriminate].
    injection Hstep as <- <-.
    destruct (segment_entries items entries s3 s6 Hentries) as [Hlen Hall].
    exists entries. split; [reflexivity|]. split; [|exact Hall].
    intros ->. destruct items as [|item items]; [|discriminate].
    destruct segs as [| | | | str |l|d]; cbn in Hiter; try discriminate;
      injection Hiter as Hitems.
    - destruct str; discriminate.
    - subst l. discriminate.
    - destruct d; discriminate. }
  destruct Hshape as (entries & -> & Hne & Hall).
  unfold lift, ret in Hbody. cbn in Hbody.
  destruct (PyOps.len (text tr)) as [n|e] eqn:Hlen; [|discriminate].
  injection Hbody as <- <-.
  eexists _, _, entries. split; [reflexivity|]. eauto.
Qed.

(** [collect_stream] adds the text of each chunk's first choice, skipping
    the chunks that carry none. *)
Lemma collect_stream_deltas deltas content :
  collect_stream (map (fun d => delta_value (fst d) :: snd d) deltas) None content
    = Ret (content +:+ deltas_text deltas).
Proof.
  revert content. induction deltas as [|[[t|] others] deltas IH]; intros content.
  - cbn. rewrite StrFacts.append_empty. reflexivity.
  - cbn [map fst snd delta_value collect_stream PyOps.index nth_error].
    cbn [deltas_text foldr fst default] .
    fold (deltas_text deltas).
    destruct (Py.truthy (VStr t)) eqn:Htruthy.
    + rewrite IH, StrFacts.append_assoc. reflexivity.
    + cbn in Htruthy. apply negb_false_iff, String.eqb_eq in Htruthy. subst t.
      rewrite IH. reflexivity.
  - cbn [map fst snd delta_value collect_stream PyOps.index nth_error Py.truthy].
    cbn [deltas_text foldr fst default]. fold (deltas_text deltas).
    rewrite IH. reflexivity.
Qed.

(** X8.  A streamed completion that ends well is returned as one string:
    the texts of the chunks' first choices in the order of arrival, the
    chunks with no text (or an empty one) skipped, the other choices of a
    chunk ignored. *)
Theorem streamed_content_is_concatenated self messages temperature max_tokens
    (s : state W) deltas w' :
  available self = true ->
  completions_create_stream messages temperature max_tokens (world s)
    = (Ret {| chunks := map (fun d => delta_value (fst d) :: snd d) deltas;
              failure := None |}, w') ->
  fst (chat_completion self messages temperature max_tokens true s)
    = Ret [("content", VStr (deltas_text deltas)); ("model", VStr "openai/gpt-oss-120b")].
Proof.
  intros Hon Hcall. unfold chat_completion, chat_completion_body. rewrite Hon. cbn [negb].
  unfold try_except, bind, call, lift, ret. rewrite Hcall. cbn [chunks failure].
  rewrite collect_stream_deltas. reflexivity.
Qed.

(** X9.  A stream that breaks, or a chunk with no choice in it, loses
    the text gathered so far: the result is the error dictionary with an
    empty content. *)
Theorem broken_stream_keeps_nothing self messages temperature max_tokens
    (s : state W) deltas rest e w' :
  available self = true ->
  (completions_create_stream messages temperature max_tokens (world s)
     = (Ret {| chunks := map (fun d => delta_value (fst d) :: snd d) deltas;
               failure := Some e |}, w') \/
   completions_create_stream messages temperature max_tokens (world s)
     = (Ret {| chunks := map (fun d => delta_value (fst d) :: snd d) deltas ++ [] :: rest;
               failure := None |}, w')) ->
  exists msg,
    fst (chat_completion self messages temperature max_tokens true s)
      = Ret [("error", VStr msg); ("content", VStr "")].
Proof.
  intros Hon Hcall. unfold chat_completion, chat_completion_body. rewrite Hon. cbn [negb].
  unfold try_except, bind, call, lift, ret.
  assert (Hfail : forall chunks' failure' content,
            (chunks' = map (fun d => delta_value (fst d) :: snd d) deltas /\ failure' = Some e) \/
            (chunks' = map (fun d => delta_value (fst d) :: snd d) deltas ++ [] :: rest) ->
            exists e', collect_stream chunks' failure' content = Raise e').
  { clear. intros chunks' failure' content Hc. revert chunks' content Hc.
    induction deltas as [|[[t|] others] deltas IH]; intros chunks' content [[-> ->]| ->];
      cbn [map app fst snd delta_value collect_stream PyOps.index nth_error Py.truthy];
      eauto.
    - destruct (negb (String.eqb t "")); eauto.
    - destruct (negb (String.eqb t "")); eauto. }
  destruct Hcall as [Hcall|Hcall]; rewrite Hcall; cbn [chunks failure].
  - destruct (Hfail _ (Some e) "" (or_introl (conj eq_refl eq_refl))) as (e' & ->).
    eexists. reflexivity.
  - destruct (Hfail _ None "" (or_intror eq_refl)) as (e' & ->).
    eexists. reflexivity.
Qed.

End GroqResults.

(** ** The forensic log and the service object *)

Section ForensicResults.
Import GroqCloud.
Context {W : Type} `{Runtime} `{Json} `{GroqAPI W}.

Lemma gateway_chat_returns self messages temperature max_tokens stream (s : state W) :
  exists result s',
    chat_completion self messages temperature max_tokens stream s = (Ret result, s') /\
    (available self = false -> Py.contains_key "error" result = true /\ s' = s).
Proof.
  unfold chat_completion. destruct (available self); cbn [negb].
  - unfold try_except.
    destruct (chat_completion_body _ _ _ _ s) as [[result|e] s1];
      eexists _, _; (split; [reflexivity|]); discriminate.
  - eexists _, _. split; [reflexivity|]. intros _. split; reflexivity.
Qed.

(** X10.  [generate_forensic_analysis] never raises.  With the service
    unavailable it returns none at once, with no call made.  A log it
    returns is a dictionary whose [media_id] and [user_id] are the ones
    passed in, whatever the model wrote under these keys. *)
Theorem forensic_log_carries_the_ids system_prompt self evidence_text media_id user_id
    (s : state W) :
  exists outcome s',
    generate_forensic_analysis system_prompt self evidence_text media_id user_id s
      = (Ret outcome, s') /\
    (available self = false -> outcome = None /\ s' = s) /\
    (forall forensic_log,
       outcome = Some forensic_log ->
       exists d,
         forensic_log = VDict d /\
         Py.lookup "media_id" d = Some (VStr media_id) /\
         Py.lookup "user_id" d = Some (VStr user_id)).
Proof.
  unfold generate_forensic_analysis, bind at 1.
  destruct (gateway_chat_returns self
              [[("role", "system"); ("content", system_prompt)];
               [("role", "user"); ("content", user_prompt evidence_text media_id user_id)]]
              0.1%float 2048 false s) as (result & s1 & Hchat & Hoff).
  rewrite Hchat.
  destruct (Py.contains_key "error" result) eqn:Herr.
  { exists None, s1. split; [reflexivity|]. split; [|discriminate].
    intros Hun. destruct (Hoff Hun) as [_ ->]. auto. }
  unfold try_except, bind, lift, ret.
  destruct (decode_forensic_log result media_id user_id) as [forensic_log|e] eqn:Hdecode.
  2:{ exists None, s1. split; [reflexivity|]. split; [|discriminate].
      intros Hun. destruct (Hoff Hun) as [Ht _]. congruence. }
  exists (Some forensic_log), s1. split; [reflexivity|]. split.
  { intros Hun. destruct (Hoff Hun) as [Ht _]. congruence. }
  intros ? [= <-]. unfold decode_forensic_log in Hdecode.
  destruct (Py.get result "content" (VStr "")); try discriminate.
  destruct (clean_markdown s0); [|discriminate].
  destruct (json_loads _) as [log|]; [|discriminate].
  destruct log; try discriminate. cbn [set_item] in Hdecode.
  injection Hdecode as <-. eexists. split; [reflexivity|]. split.
  - rewrite lookup_set_ne by reflexivity. apply lookup_set_eq.
  - apply lookup_set_eq.
Qed.

(** X11.  [__init__] never raises, and the service it builds is available
    exactly when it has a client, that is when the API key is set and the
    Groq constructor returned; with no key it does not try the
    constructor. *)
Theorem service_available_iff_client (s : state W) :
  exists service s',
    __init__ s = (Ret service, s') /\
    api_key service = GROQ_API_KEY /\
    available service = client service /\
    (GROQ_API_KEY = "" -> available service = false /\ s' = s) /\
    (available service = true <->
     GROQ_API_KEY <> "" /\ exists w', Groq GROQ_API_KEY (world s) = (Ret tt, w')).
Proof.
  unfold __init__.
  destruct (String.eqb GROQ_API_KEY "") eqn:Hkey; cbn [negb].
  - apply String.eqb_eq in Hkey.
    eexists _, _. split; [reflexivity|]. cbn. repeat split; auto; try discriminate.
    intros [Hne _]. contradiction.
  - apply String.eqb_neq in Hkey.
    unfold try_except, bind, call.
    destruct (Groq GROQ_API_KEY (world s)) as [[[]|e] w1] eqn:Hgroq; cbn.
    + eexists _, _. split; [reflexivity|]. cbn. repeat split; eauto; try contradiction.
    + eexists _, _. split; [reflexivity|]. cbn. repeat split; try contradiction; try discriminate.
      intros [_ [w' [=]]].
Qed.

(** X12.  [get_groq_cloud_service] builds the service once: the first
    call stores what it built, with at most one call to the Groq
    constructor, and every later call returns the stored service and
    changes nothing, even if the first attempt failed. *)
Theorem groq_service_is_built_once (s : state W) :
  exists service s1,
    get_groq_cloud_service s = (Ret service, s1) /\
    _service_instance s1 = Some service /\
    (trace s1 = trace s \/ trace s1 = trace s ++ [EvGroqClient]) /\
    get_groq_cloud_service s1 = (Ret service, s1).
Proof.
  assert (Hagain : forall service (s1 : state W),
            _service_instance s1 = Some service ->
            get_groq_cloud_service s1 = (Ret service, s1)).
  { intros service s1 Hinst. unfold get_groq_cloud_service, bind, get_instance.
    rewrite Hinst. reflexivity. }
  unfold get_groq_cloud_service at 1, bind, get_instance.
  destruct (_service_instance s) as [service|] eqn:Hinst.
  { exists service, s. repeat split; auto. }
  unfold __init__.
  destruct (negb (String.eqb GROQ_API_KEY "")).
  - unfold try_except, bind, call.
    destruct (Groq GROQ_API_KEY (world s)) as [[[]|e] w1]; cbn;
      eexists _, _; (split; [reflexivity|]); cbn; repeat split; auto;
      apply Hagain; reflexivity.
  - cbn. eexists _, _. split; [reflexivity|]. cbn. repeat split; auto.
Qed.

End ForensicResults.

(** ** The face-detection server, on success *)

Section FaceResults.
Import FaceDetection Str StrFacts.
Context {W : Type} `{Runtime} `{OpenCV}.

Lemma no_match_char c a r :
  contains (String c "") a = false -> no_match (String c "") a r = true.
Proof.
  induction a as [|x a IH]; [reflexivity|].
  cbn [contains startswith]. intros [Hx Ha]%orb_false_iff.
  cbn [no_match]. rewrite append_cons. cbn [startswith].
  destruct a; cbn [startswith] in *; rewrite Hx; exact (IH Ha).
Qed.

(** [split] at the one comma of a data URL. *)
Lemma split_data_url prefix payload :
  contains "," prefix = false -> contains "," payload = false ->
  contains "," (prefix +:+ "," +:+ payload) = true /\
  split "," (prefix +:+ "," +:+ payload) = [prefix; payload].
Proof.
  intros Hprefix Hpayload. split.
  - rewrite contains_app by (apply no_match_char, Hprefix). apply contains_self.
  - rewrite (split_app "," prefix ("," +:+ payload) "" [payload]).
    + rewrite append_empty. reflexivity.
    + apply no_match_char, Hprefix.
    + rewrite split_self, split_no_sep by exact Hpayload. reflexivity.
Qed.

(** X13.  [detect_faces_base64] answers an image sent as a data URL (a
    prefix, a comma, the base64 text) as it answers the base64 text sent
    alone, when neither the prefix nor the text has a comma in it. *)
Theorem data_url_like_raw_base64 data data' prefix payload (s : state W) :
  Py.get data "image" VNone = VStr (prefix +:+ "," +:+ payload) ->
  Py.get data' "image" VNone = VStr payload ->
  contains "," prefix = false ->
  contains "," payload = false ->
  payload <> "" ->
  detect_faces_base64 data s = detect_faces_base64 data' s.
Proof.
  intros Hdata Hdata' Hprefix Hpayload Hne.
  destruct (split_data_url prefix payload Hprefix Hpayload) as [Hin Hsplit].
  unfold detect_faces_base64, detect_faces_base64_body.
  rewrite Hdata, Hdata'.
  assert (Hurl : Py.truthy (VStr (prefix +:+ "," +:+ payload)) = true).
  { destruct prefix; reflexivity. }
  assert (Hraw : Py.truthy (VStr payload) = true).
  { destruct payload; [congruence | reflexivity]. }
  rewrite Hurl, Hraw. cbn [negb].
  rewrite Hin, Hsplit, Hpayload. reflexivity.
Qed.

Lemma enumerate_nth {A} (xs : list A) :
  forall k i n x,
    nth_error (combine (map Z.of_nat (seq k (length xs))) xs) i = Some (n, x) ->
    n = Z.of_nat (k + i).
Proof.
  induction xs as [|y xs IH]; intros k i n x; cbn.
  - destruct i; discriminate.
  - destruct i as [|i]; cbn.
    + intros [= <- <-]. f_equal. lia.
    + intros Hnth. rewrite (IH (S k) i n x Hnth). f_equal. lia.
Qed.

Lemma for_each_nth {A B} (f : A -> M W B) (xs : list A) :
  forall ys (s s' : state W),
    for_each f xs s = (Ret ys, s') ->
    forall i y, nth_error ys i = Some y ->
    exists x s0 s1, nth_error xs i = Some x /\ f x s0 = (Ret y, s1).
Proof.
  induction xs as [|x xs IH]; intros ys s s'; cbn [for_each].
  - unfold ret. intros [= <- <-] i y. destruct i; discriminate.
  - unfold bind, ret.
    destruct (f x s) as [[y0|e] s1] eqn:Hx; [|discriminate].
    destruct (for_each f xs s1) as [[ys0|e] s2] eqn:Hxs; [|discriminate].
    intros [= <- <-] i y. destruct i as [|i]; cbn.
    + intros [= <-]. eauto.
    + intros Hnth. destruct (IH ys0 s1 s2 Hxs i y Hnth) as (x' & s0 & s3 & Hx' & Hf).
      eauto.
Qed.

(** X14.  What the two face endpoints return on success is a report
    whose [face_count] is the number of entries under [faces], and whose
    entries carry the ids 1, 2, 3, ... in the order of the list. *)
Theorem face_reports_are_numbered upload data body (s s' : state W) :
  detect_faces upload s = (Ret body, s') \/
  detect_faces_base64 data s = (Ret body, s') ->
  face_report body.
Proof.
  intros [Hrun|Hrun].
  - unfold detect_faces, try_except in Hrun.
    destruct (detect_faces_body upload s) as [[b|e] s1] eqn:Hbody; [|discriminate].
    injection Hrun as -> ->.
    unfold detect_faces_body, bind, lift, ret in Hbody.
    destruct (file upload) as [contents|]; [|discriminate].
    destruct (imdecode contents) as [[img|]|]; try discriminate.
    destruct (cvtColor img) as [gray|]; [|discriminate].
    destruct (face_cascade gray _) as [faces|]; [|discriminate].
    destruct (for_each _ (enumerate faces) s) as [[face_data|e] s2] eqn:Hfaces;
      [|discriminate].
    injection Hbody as <- <-.
    assert (Hlen : length face_data = length faces).
    { clear -Hfaces. unfold enumerate in Hfaces.
      assert (Hgen : forall {A B} (f : A -> M W B) xs ys (s s' : state W),
                for_each f xs s = (Ret ys, s') -> length ys = length xs).
      { intros A B f xs. induction xs as [|x xs IH]; intros ys s0 s1; cbn [for_each].
        - unfold ret. intros [= <- <-]. reflexivity.
        - unfold bind, ret. destruct (f x s0) as [[y|e] sa]; [|discriminate].
          destruct (for_each f xs sa) as [[ys0|e] sb] eqn:E; [|discriminate].
          intros [= <- <-]. cbn. f_equal. eauto. }
      rewrite (Hgen _ _ _ _ _ _ _ Hfaces), length_combine, length_map, length_seq.
      lia. }
    exists face_data, [("image_width", VInt (snd (shape img)));
                       ("image_height", VInt (fst (shape img)))].
    split; [rewrite Hlen; reflexivity|].
    intros i entry Hnth.
    destruct (for_each_nth _ _ _ _ _ Hfaces i entry Hnth)
      as ([n [[[x y] w] h]] & s0 & s3 & Hx & Hentry).
    apply enumerate_nth in Hx. cbn in Hx. subst n.
    unfold bind, lift, ret in Hentry.
    destruct (eye_cascade _) as [eyes|]; [|discriminate].
    injection Hentry as <- <-. eexists. split; reflexivity.
  - unfold detect_faces_base64, try_except in Hrun.
    destruct (detect_faces_base64_body data s) as [[b|e] s1] eqn:Hbody; [|discriminate].
    injection Hrun as -> ->.
    unfold detect_faces_base64_body in Hbody.
    destruct (negb (Py.truthy (Py.get data "image" VNone))); [discriminate|].
    destruct (Py.get data "image" VNone) as [| | | |image| |]; try discriminate.
    unfold bind, lift, ret in Hbody.
    assert (Hpayload : exists payload,
               match b64decode payload with
               | Ret img_bytes =>
                   match imdecode img_bytes with
                   | Ret (Some img) =>
                       match cvtColor img with
                       | Ret gray =>
                           match face_cascade gray
                                   {| scaleFactor := 1.2%float; minNeighbors := 4;
                                      minSize := (50, 50); flags := None |} with
                           | Ret faces =>
                               body = VDict [("face_count", VInt (Z.of_nat (length faces)));
                                          ("faces",
                                           VList (map (fun '(i, (x, y, w, h)) =>
                                                         VDict [("id", VInt (i + 1));
                                                                ("x", VInt x); ("y", VInt y);
                                                                ("width", VInt w);
                                                                ("height", VInt h)])
                                                      (enumerate faces)))]
                           | Raise _ => False
                           end
                       | Raise _ => False
                       end
                   | _ => False
                   end
               | Raise _ => False
               end).
    { destruct (contains "," image).
      - destruct (PyOps.index (split "," image) 1) as [payload|]; [|discriminate].
        exists payload.
        destruct (b64decode payload) as [img_bytes|]; [|discriminate].
        destruct (imdecode img_bytes) as [[img|]|]; try discriminate.
        destruct (cvtColor img) as [gray|]; [|discriminate].
        destruct (face_cascade gray _) as [faces|]; [|discriminate].
        injection Hbody as <- <-. reflexivity.
      - exists image.
        destruct (b64decode image) as [img_bytes|]; [|discriminate].
        destruct (imdecode img_bytes) as [[img|]|]; try discriminate.
        destruct (cvtColor img) as [gray|]; [|discriminate].
        destruct (face_cascade gray _) as [faces|]; [|discriminate].
        injection Hbody as <- <-. reflexivity. }
    clear Hbody. destruct Hpayload as (payload & Hbody).
    destruct (b64decode payload) as [img_bytes|]; [|contradiction].
    destruct (imdecode img_bytes) as [[img|]|]; try contradiction.
    destruct (cvtColor img) as [gray|]; [|contradiction].
    destruct (face_cascade gray _) as [faces|]; [|contradiction].
    subst body.
    eexists _, []. split.
    + rewrite length_map. unfold enumerate.
      rewrite length_combine, length_map, length_seq, Nat.min_id. reflexivity.
    + intros i entry Hnth.
      rewrite nth_error_map in Hnth.
      unfold enumerate in Hnth.
      destruct (nth_error (combine _ faces) i) as [[n [[[x y] w] h]]|] eqn:Hx;
        cbn in Hnth; [|discriminate].
      apply enumerate_nth in Hx. cbn in Hx. subst n.
      injection Hnth as <-. eexists. split; reflexivity.
Qed.

End FaceResults.

(** ** The speech server, on success *)

Section WhisperResults.
Import WhisperServer Str StrFacts.
Context {W : Type} `{Runtime} `{SpeechModel W}.

Lemma blank_app a b : blank a = true -> blank b = true -> blank (a +:+ b) = true.
Proof.
  intros Ha Hb. induction a as [|c a IH]; [exact Hb|].
  cbn [blank] in Ha. apply andb_true_iff in Ha as [Hc Ha].
  rewrite append_cons. cbn [blank]. rewrite Hc. exact (IH Ha).
Qed.

Lemma blank_join segments :
  Forall (fun t => blank t = true) segments -> blank (join " " segments) = true.
Proof.
  induction 1 as [|t rest Ht Hrest IH]; [reflexivity|].
  cbn [join]. destruct rest as [|t' rest]; [exact Ht|].
  apply blank_app; [exact Ht|]. apply blank_app; [reflexivity | exact IH].
Qed.

Lemma strip_blank t : blank t = true -> strip t = "".
Proof. intros Ht. unfold strip. rewrite (rstrip_blank t Ht). reflexivity. Qed.

(** X15.  Silence is answered with an empty text: when the upload is
    written and read, and the model, run with beam size 5 on a file that
    holds the uploaded bytes, returns no segment or only segments of white
    space, the handler returns [text] as the empty string, with the
    language and its probability as the model gave them. *)
Theorem silence_gives_empty_text upload data segments info (s : state W) w1 w2 fs2 :
  open_wb (temp_filename upload) (world s) = (Ret tt, w1) ->
  file upload = Ret data ->
  model_transcribe (temp_filename upload) 5
    (w1, <[temp_filename upload := data]> (files s))
    = (Ret (segments, info), (w2, fs2)) ->
  Forall (fun t => blank t = true) segments ->
  fst (transcribe_audio upload s)
    = Ret (VDict [("text", VStr "");
                  ("language", language info);
                  ("probability", language_probability info)]).
Proof.
  intros Hopen Hread Hmodel Hsilent.
  assert (Hbody : exists s1,
             transcribe_audio_body upload s
               = (Ret (VDict [("text", VStr "");
                              ("language", language info);
                              ("probability", language_probability info)]), s1)).
  { unfold transcribe_audio_body.
    unfold bind, call, call_with_files, write_file, get_files, put_files, lift, ret.
    rewrite Hopen. cbn. rewrite Hread. cbn.
    unfold bind, ret. cbn. rewrite insert_insert_eq, Hmodel.
    rewrite (strip_blank _ (blank_join segments Hsilent)). eauto. }
  destruct Hbody as (s1 & Hbody).
  unfold transcribe_audio, try_finally, try_except. rewrite Hbody.
  pose proof (cleanup_removes upload s1) as [Hret _].
  destruct (cleanup upload s1) as [[u|e] s3]; cbn in *; [reflexivity | discriminate].
Qed.

End WhisperResults.

(** ** What is written to the memory *)

Section StoreProperties.
Import SupabaseSync.
Context {W : Type} `{Runtime} `{Json} `{GroqCloud.GroqAPI W}
        `{HttpClient W} `{VisionService W} `{MemoryService W} `{System W}.

Lemma join_names_needs_strings names v :
  In v names -> (forall n, v <> VStr n) ->
  join_names names = Raise (PyError "TypeError" "sequence item: expected str instance").
Proof.
  intros Hin Hv. unfold join_names.
  assert (Hnone : foldr (fun name acc =>
                           match name, acc with
                           | VStr n, Some ns => Some (n :: ns)
                           | _, _ => None
                           end) (Some []) names = None).
  { induction names as [|name names IH]; [destruct Hin|].
    cbn [foldr]. destruct Hin as [->|Hin].
    - destruct v; try reflexivity. exfalso. eapply Hv. reflexivity.
    - rewrite (IH Hin). destruct name; reflexivity. }
  rewrite Hnone. reflexivity.
Qed.

(** X16.  A tag that is a dictionary without a string under ["name"]
    stops the store: joining the tag names raises a [TypeError] before
    anything is written, so [store_to_supermemory] raises (it does not
    return false) and [add_memory] is never called. *)
Theorem unnamed_tag_stops_the_store media_id user_id analysis media_type name tags d
    (s : state W) :
  Py.get analysis "tags" VNone = VList tags ->
  In (VDict d) tags ->
  (forall n, Py.lookup "name" d <> Some (VStr n)) ->
  exists e s',
    store_to_supermemory media_id user_id analysis media_type name s = (Raise e, s') /\
    trace s' = trace s ++ [EvMemoryService] /\
    memory_content media_id user_id analysis media_type name
      = Raise (PyError "TypeError" "sequence item: expected str instance").
Proof.
  intros Htags Hin Hname.
  assert (Hcontent : memory_content media_id user_id analysis media_type name
                     = Raise (PyError "TypeError" "sequence item: expected str instance")).
  { unfold memory_content. rewrite Htags.
    assert (Htruthy : Py.truthy (VList tags) = true) by (destruct tags; [destruct Hin | reflexivity]).
    rewrite Htruthy. cbn [PyOps.iter].
    rewrite (join_names_needs_strings (map tag_name tags) (tag_name (VDict d))).
    - reflexivity.
    - apply in_map, Hin.
    - intros n. cbn [tag_name]. unfold Py.get.
      destruct (Py.lookup "name" d) as [v|] eqn:Hlook; [|discriminate].
      intros ->. exact (Hname n eq_refl). }
  unfold store_to_supermemory, bind, call, lift. rewrite Hcontent.
  destruct (get_supermemory_service (world s)) as [[[]|e] w1]; cbn; eauto.
Qed.

End StoreProperties.

(** ** Prose around the fenced log *)

Section ProseProperties.
Import Str StrFacts GroqCloud.

Lemma no_match_first_char c sep a r :
  contains (String c "") a = false -> no_match (String c sep) a r = true.
Proof.
  induction a as [|x a IH]; [reflexivity|].
  cbn [contains startswith]. intros [Hx Ha]%orb_false_iff.
  cbn [no_match]. rewrite append_cons. cbn [startswith].
  assert (Hc : Ascii.eqb c x = false).
  { destruct (Ascii.eqb c x); [|reflexivity]. destruct a; discriminate. }
  rewrite Hc. exact (IH Ha).
Qed.

Lemma no_backtick_no_fence t : contains "`" t = false -> contains fence t = false.
Proof.
  intros Ht. rewrite <- (append_empty t).
  rewrite contains_app; [reflexivity|]. apply no_match_first_char, Ht.
Qed.

(** After the closing fence: a text with no backtick that does not go on
    with [json] makes no [json] fence with it. *)
Lemma contains_fence_json_closing outro :
  contains "`" outro = false -> startswith "json" outro = false ->
  contains fence_json (fence +:+ outro) = false.
Proof.
  intros Houtro Hjson.
  rewrite contains_app.
  - apply contains_fence_json, no_backtick_no_fence, Houtro.
  - assert (Hfirst : forall p, startswith (String backtick p) outro = false).
    { intros p. destruct outro as [|x outro]; [reflexivity|].
      cbn [contains startswith] in Houtro. apply orb_false_iff in Houtro as [Hx _].
      cbn [startswith] in Hx |- *. unfold backtick.
      destruct (Ascii.eqb _ x); [|reflexivity].
      destruct outro; discriminate. }
    unfold fence_json. unfold fence.
    cbn [no_match]. rewrite !append_cons, !append_nil, !startswith_cons.
    rewrite !Ascii.eqb_refl, Hjson, !Hfirst. reflexivity.
Qed.

(** The text from the opening white space on, when the log is fenced and
    followed by prose. *)
Lemma fenced_rest before s after outro :
  contains fence s = false ->
  blank before = true -> blank after = true -> after <> "" ->
  contains "`" outro = false -> startswith "json" outro = false ->
  contains fence_json (before +:+ s +:+ after +:+ fence +:+ outro) = false /\
  exists pieces,
    split fence (before +:+ s +:+ after +:+ fence +:+ outro)
      = (before +:+ s +:+ after) :: pieces.
Proof.
  intros Hs Hbefore Hafter Hne Houtro Hjson. rewrite <- padded_assoc. split.
  - rewrite contains_app.
    + apply contains_fence_json_closing; assumption.
    + apply (no_match_weaken fence "json"), no_match_padded; assumption.
  - exists (split fence outro).
    rewrite (split_app fence _ (fence +:+ outro) "" (split fence outro)).
    + rewrite append_empty. reflexivity.
    + apply no_match_padded; assumption.
    + apply split_fence_self.
Qed.

Lemma clean_markdown_with_prose_json intro before s after outro :
  contains "`" intro = false -> contains "`" outro = false ->
  startswith "json" outro = false ->
  contains fence s = false ->
  blank before = true -> blank after = true -> after <> "" ->
  clean_markdown (intro +:+ wrap fence_json before s after +:+ outro)
    = Ret (before +:+ s +:+ after).
Proof.
  intros Hintro Houtro Hjson Hs Hbefore Hafter Hne.
  destruct (fenced_rest before s after outro Hs Hbefore Hafter Hne Houtro Hjson)
    as [Hrest (pieces & Hsplit)].
  assert (Hshape : intro +:+ wrap fence_json before s after +:+ outro
                   = intro +:+ fence_json +:+ before +:+ s +:+ after +:+ fence +:+ outro).
  { unfold wrap. rewrite !append_assoc. reflexivity. }
  rewrite Hshape. unfold clean_markdown.
  assert (Hin : contains fence_json
                  (intro +:+ fence_json +:+ before +:+ s +:+ after +:+ fence +:+ outro) = true).
  { rewrite contains_app by (apply (no_match_first_char backtick), Hintro).
    apply contains_self. }
  rewrite Hin.
  rewrite (split_app fence_json intro _ ""
             [before +:+ s +:+ after +:+ fence +:+ outro]).
  - cbn [PyOps.index nth_error]. rewrite Hsplit. reflexivity.
  - apply (no_match_first_char backtick), Hintro.
  - rewrite split_fence_json_self, split_no_sep by exact Hrest. reflexivity.
Qed.

Lemma clean_markdown_with_prose intro before s after outro :
  contains "`" intro = false -> contains "`" outro = false ->
  startswith "json" outro = false ->
  contains fence s = false ->
  blank before = true -> before <> "" -> blank after = true -> after <> "" ->
  clean_markdown (intro +:+ wrap fence before s after +:+ outro)
    = Ret (before +:+ s +:+ after).
Proof.
  intros Hintro Houtro Hjson Hs Hbefore Hne Hafter Hne'.
  destruct (fenced_rest before s after outro Hs Hbefore Hafter Hne' Houtro Hjson)
    as [Hrest (pieces & Hsplit)].
  assert (Hshape : intro +:+ wrap fence before s after +:+ outro
                   = intro +:+ fence +:+ before +:+ s +:+ after +:+ fence +:+ outro).
  { unfold wrap. rewrite !append_assoc. reflexivity. }
  rewrite Hshape. unfold clean_markdown.
  assert (Hnot : contains fence_json
                   (intro +:+ fence +:+ before +:+ s +:+ after +:+ fence +:+ outro) = false).
  { rewrite contains_app by (apply (no_match_first_char backtick), Hintro).
    destruct (blank_cons before Hbefore Hne) as (c & before' & E & Hc & _).
    rewrite E in *. rewrite append_cons in *.
    rewrite contains_fence_json_opening by exact Hc. exact Hrest. }
  assert (Hin : contains fence
                  (intro +:+ fence +:+ before +:+ s +:+ after +:+ fence +:+ outro) = true).
  { rewrite contains_app by (apply (no_match_first_char backtick), Hintro).
    apply contains_self. }
  rewrite Hnot, Hin.
  rewrite (split_app fence intro _ "" ((before +:+ s +:+ after) :: pieces)).
  - cbn [PyOps.index nth_error].
    rewrite split_no_sep by (apply contains_fence_padded; assumption). reflexivity.
  - apply (no_match_first_char backtick), Hintro.
  - rewrite split_fence_self, Hsplit. reflexivity.
Qed.

(** X17.  Prose around the fenced log is dropped: a model output made of
    an introduction, the log between code fences (with or without the
    [json] tag, white space between each fence and the log) and a closing
    remark is decoded exactly as the log alone, when the log has no run of
    three backticks, the prose has no backtick, and the remark does not
    start with [json]. *)
Theorem prose_around_the_fences `{Json} intro before s after outro media_id user_id :
  contains "`" intro = false ->
  contains "`" outro = false ->
  startswith "json" outro = false ->
  contains fence s = false ->
  blank before = true -> before <> "" ->
  blank after = true -> after <> "" ->
  decode_forensic_log
    (completion_of (intro +:+ wrap fence_json before s after +:+ outro)) media_id user_id
    = decode_forensic_log (completion_of s) media_id user_id /\
  decode_forensic_log
    (completion_of (intro +:+ wrap fence before s after +:+ outro)) media_id user_id
    = decode_forensic_log (completion_of s) media_id user_id.
Proof.
  intros Hintro Houtro Hjson Hs Hbefore Hne Hafter Hne'.
  unfold decode_forensic_log, completion_of.
  cbn [Py.get Py.lookup String.eqb Ascii.eqb Bool.eqb].
  rewrite (clean_markdown_plain s Hs),
    (clean_markdown_with_prose_json intro before s after outro
       Hintro Houtro Hjson Hs Hbefore Hafter Hne'),
    (clean_markdown_with_prose intro before s after outro
       Hintro Houtro Hjson Hs Hbefore Hne Hafter Hne'),
    (strip_padded before s after Hbefore Hafter).
  split; reflexivity.
Qed.

End ProseProperties.

(** * Further examples *)

Section MoreExamples.
Import Script Cases.
#[local] Existing Instances runtime json groq http vision memory system opencv speech.

(** X1: the three scripted records; two of them have a URL. *)
Lemma sync_counts_each_record_once_witness :
  exists processed errors s',
    SupabaseSync.sync_user_media configured "user-1" start
      = (Ret (completed_summary processed (Z.of_nat (length records)) errors), s') /\
    0 <= processed /\ 0 <= errors /\
    processed + errors = Z.of_nat (length (List.filter has_source_url records)) /\
    (forallb has_source_url records = true ->
     processed + errors = Z.of_nat (length records)).
Proof.
  apply (sync_counts_each_record_once configured "user-1" start
           (snd (SupabaseSync.get_user_media configured "user-1" start)) records).
  - vm_compute. reflexivity.
  - discriminate.
Defined.

(** X4: the recording and the note are all that is on the disk after an
    analysis. *)
Example analysis_leaves_the_disk_as_it_was :
  files (snd (SupabaseSync.analyze_media clip (VStr "audio") (VStr "c.mp3") start_with_files))
    = files start_with_files.
Proof. vm_compute. reflexivity. Qed.

(** X5: the scripted system always has a temporary file to give, and
    takes every write. *)
Lemma analyze_media_returns_witness :
  exists result s',
    SupabaseSync.analyze_media clip (VStr "video") (VStr "c.mp4") start = (Ret result, s').
Proof.
  apply (analyze_media_returns clip (VStr "video") "c.mp4" start).
  - intros suffix w. eexists _, _. reflexivity.
  - intros temp_path data w. eexists. reflexivity.
Defined.

(** X6: an image, with the service built without a key. *)
Lemma analyze_media_without_groq_witness :
  exists analyzed_at s',
    SupabaseSync.analyze_media clip (VStr "image") (VStr "a.png") start_without_groq
      = (Ret (blank_analysis analyzed_at), s') /\
    (trace s' = trace start_without_groq ++ [EvClock] \/
     trace s' = trace start_without_groq ++ [EvGroqClient; EvClock]) /\
    (is_Some (_service_instance start_without_groq) \/ GroqCloud.GROQ_API_KEY = "" ->
     trace s' = trace start_without_groq ++ [EvClock]) /\
    files s' = files start_without_groq.
Proof.
  apply (analyze_media_without_groq clip (VStr "image") (VStr "a.png")
           service_without_key start_without_groq start_without_groq);
    reflexivity.
Defined.

(** X7: the recording on the disk, transcribed with no segments from the
    service. *)
Lemma transcription_result_shape_witness :
  exists t lang entries,
    [("text", VStr "hello world"); ("language", VStr "en");
     ("segments", VList [VDict [("text", VStr "hello world"); ("start", VInt 0);
                                ("end", VNone)]])]
      = [("text", t); ("language", lang); ("segments", VList entries)] /\
    (exists n, PyOps.len t = Ret n) /\
    entries <> [] /\
    Forall is_segment entries.
Proof.
  apply (transcription_result_shape service_with_key "/data/clip.wav" start_with_files
           (snd (GroqCloud.transcribe_audio service_with_key "/data/clip.wav"
                   start_with_files))).
  - vm_compute. reflexivity.
  - reflexivity.
Defined.

(** X8: the scripted stream, [{], nothing, [}]. *)
Lemma streamed_content_is_concatenated_witness :
  fst (GroqCloud.chat_completion service_with_key [] 0.2%float 100 true start)
    = Ret [("content", VStr (deltas_text [(Some "{", []); (None, []); (Some "}", [])]));
           ("model", VStr "openai/gpt-oss-120b")].
Proof.
  apply (streamed_content_is_concatenated service_with_key [] 0.2%float 100 start
           [(Some "{", []); (None, []); (Some "}", [])] tt);
    reflexivity.
Defined.

(** X13: the text [not an image], as a data URL and alone. *)
Lemma data_url_like_raw_base64_witness :
  FaceDetection.detect_faces_base64 text_data_url start
    = FaceDetection.detect_faces_base64 raw_base64 start.
Proof.
  apply (data_url_like_raw_base64 text_data_url raw_base64
           "data:text/plain;base64" "bm90IGFuIGltYWdl" start);
    solve [reflexivity | discriminate].
Defined.

(** X14: an upload that starts with the PNG signature. *)
Lemma face_reports_are_numbered_witness :
  exists body,
    fst (FaceDetection.detect_faces png_upload start) = Ret body /\
    face_report body.
Proof.
  eexists. split; [vm_compute; reflexivity|].
  apply (face_reports_are_numbered png_upload [] _ start start).
  left. vm_compute. reflexivity.
Defined.

(** X16: the one tag of the analysis has no name. *)
Lemma unnamed_tag_stops_the_store_witness :
  exists e s',
    SupabaseSync.store_to_supermemory (VStr "m1") "user-1" analysis_with_unnamed_tag
      (VStr "image") (VStr "a.png") start = (Raise e, s') /\
    trace s' = trace start ++ [EvMemoryService] /\
    SupabaseSync.memory_content (VStr "m1") "user-1" analysis_with_unnamed_tag
      (VStr "image") (VStr "a.png")
      = Raise (PyError "TypeError" "sequence item: expected str instance").
Proof.
  apply (unnamed_tag_stops_the_store (VStr "m1") "user-1" analysis_with_unnamed_tag
           (VStr "image") (VStr "a.png")
           [VDict [("label", VStr "desk")]] [("label", VStr "desk")] start).
  - reflexivity.
  - simpl. auto.
  - intros n. discriminate.
Defined.

(** X17: the log announced, fenced, and followed by a remark. *)
Lemma prose_around_the_fences_witness :
  GroqCloud.decode_forensic_log
    (completion_of ("Here is the log:" +:+ wrap Str.fence_json Str.nl plain_log Str.nl
                    +:+ (Str.nl +:+ "Done.")))
    "m1" "user-1"
    = GroqCloud.decode_forensic_log (completion_of plain_log) "m1" "user-1" /\
  GroqCloud.decode_forensic_log
    (completion_of ("Here is the log:" +:+ wrap Str.fence Str.nl plain_log Str.nl
                    +:+ (Str.nl +:+ "Done.")))
    "m1" "user-1"
    = GroqCloud.decode_forensic_log (completion_of plain_log) "m1" "user-1".
Proof.
  apply (prose_around_the_fences "Here is the log:" Str.nl plain_log Str.nl
           (Str.nl +:+ "Done.") "m1" "user-1");
    solve [reflexivity | discriminate].
Defined.

Example prose_around_the_fences_decoded :
  GroqCloud.decode_forensic_log
    (completion_of ("Here is the log:" +:+ wrap Str.fence Str.nl plain_log Str.nl
                    +:+ (Str.nl +:+ "Done.")))
    "m1" "user-1"
    = Ret (VDict [("room", VStr "office"); ("media_id", VStr "m1");
                  ("user_id", VStr "user-1")]).
Proof. vm_compute. reflexivity. Qed.

End MoreExamples.

Section HollowStoreExamples.
Import Script Cases.
#[local] Existing Instances runtime json groq http_hollow vision memory system.

(** X2: the image record, from a store whose files are empty. *)
Lemma empty_download_is_an_error_witness :
  exists s',
    SupabaseSync.sync_record configured "user-1" record_image (0, 0) start
      = (Ret (0, 0 + 1), s') /\
    trace s' = trace start ++ [EvHttpGet (Py.get record_image "file_url" (VStr ""))] /\
    files s' = files start.
Proof.
  apply (empty_download_is_an_error configured "user-1" record_image 0 0 start
           (respond 200 [] not_json) tt);
    reflexivity.
Defined.

End HollowStoreExamples.

Section LostFilesExamples.
Import Script Cases.
#[local] Existing Instances runtime json groq http_listing_only vision memory system.

(** X3: the three records, from a store that has lost every file. *)
Lemma sync_without_files_witness :
  exists s' evs,
    SupabaseSync.sync_user_media configured "user-1" start
      = (Ret (completed_summary 0 (Z.of_nat (length records))
                (Z.of_nat (length (List.filter has_source_url records)))), s') /\
    trace s' = trace start ++ evs /\
    Forall (fun ev => is_http_get ev = true) evs /\
    files s' = files start.
Proof.
  apply (sync_without_files configured "user-1" start
           (snd (SupabaseSync.get_user_media configured "user-1" start)) records).
  - intros url w. simpl. discriminate.
  - vm_compute. reflexivity.
  - discriminate.
Defined.

Example sync_without_files_summary :
  fst (SupabaseSync.sync_user_media configured "user-1" start)
    = Ret (completed_summary 0 3 2).
Proof. vm_compute. reflexivity. Qed.

End LostFilesExamples.

Section BrokenStreamExamples.
Import Script Cases.
#[local] Existing Instances runtime json groq_offline.

(** X9: the stream of the account that is offline breaks after its first
    chunk. *)
Lemma broken_stream_keeps_nothing_witness :
  exists msg,
    fst (GroqCloud.chat_completion service_with_key [] 0.2%float 100 true start)
      = Ret [("error", VStr msg); ("content", VStr "")].
Proof.
  apply (broken_stream_keeps_nothing service_with_key [] 0.2%float 100 start
           [(Some "{", [])] [] (PyError "APIConnectionError" "Connection error.") tt).
  - reflexivity.
  - left. reflexivity.
Defined.

End BrokenStreamExamples.

Section SilenceExamples.
Import Script Cases.
#[local] Existing Instances runtime speech_silent.

(** X15: a recording in which the model hears nothing. *)
Lemma silence_gives_empty_text_witness :
  fst (WhisperServer.transcribe_audio audio_upload start)
    = Ret (VDict [("text", VStr ""); ("language", VStr "en");
                  ("probability", VFloat 0.5%float)]).
Proof.
  apply (silence_gives_empty_text audio_upload
           [Byte.x52; Byte.x49; Byte.x46; Byte.x46]
           [" "; ""; Str.nl +:+ " "]
           {| WhisperServer.language := VStr "en";
              WhisperServer.language_probability := VFloat 0.5%float |}
           start tt tt
           (<[WhisperServer.temp_filename audio_upload :=
                [Byte.x52; Byte.x49; Byte.x46; Byte.x46]]> (files start))).
  - reflexivity.
  - reflexivity.
  - reflexivity.
  - repeat constructor.
Defined.

End SilenceExamples.

Section DiskFullExamples.
Import Script Cases.
#[local] Existing Instances runtime json groq http vision memory system_disk_full.

(** X4: the disk takes two bytes of the image and no more; the analysis
    raises, and the temporary file stays with the two bytes. *)
Example failed_write_leaves_the_file :
  SupabaseSync.analyze_media [Byte.x89; Byte.x50; Byte.x4e; Byte.x47]
    (VStr "image") (VStr "a.png") start
    = (Raise (PyError "OSError" "No space left on device"),
       {| world := tt;
          trace := [EvGroqClient; EvClock; EvTempFile ".png"];
          files := {[ "/tmp/tmp0.png" := [Byte.x89; Byte.x50] ]};
          _service_instance := Some service_with_key |}).
Proof. vm_compute. reflexivity. Qed.

(** The record counts as an error, and the file is still there after the
    run. *)
Example failed_write_counts_as_error :
  fst (SupabaseSync.sync_record configured "user-1" record_image (0, 0) start)
    = Ret (0, 1) /\
  files (snd (SupabaseSync.sync_record configured "user-1" record_image (0, 0) start))
    = {[ "/tmp/tmp0.png" := [Byte.x89; Byte.x50] ]}.
Proof. vm_compute. split; reflexivity. Qed.

End DiskFullExamples.

Section RejectedKeyExamples.
Import Script Cases.
#[local] Existing Instances runtime json groq_rejected http vision memory system.

(** X6: a key is set and the constructor refuses it; the call that builds
    the service tries the constructor once, then asks the clock. *)
Example analyze_media_with_rejected_key :
  SupabaseSync.analyze_media clip (VStr "image") (VStr "a.png") start
    = (Ret (blank_analysis "2025-01-01T00:00:00"),
       {| world := tt;
          trace := [EvGroqClient; EvClock];
          files := ∅;
          _service_instance :=
            Some {| api_key := "gsk_example"; client := false; available := false |} |}).
Proof. vm_compute. reflexivity. Qed.

End RejectedKeyExamples.
